(** * hf_download.py: the HuggingFace Hub download wrapper

    A shallow embedding of [backend/scripts/hf_download.py].  The script
    parses its command line, resolves the token and the cache directory from
    the environment, calls one function of [huggingface_hub] and prints one
    JSON object per line on standard output.

    Conventions of the embedding.
    - Python [str] is [string]; an optional argument ([None] or a [str]) is
      [option string]; Python [int] is [Z].
    - A file-system path is the list of its components, and
      [os.path.join root name] appends one component.
    - What the script prints is kept as a list of structured events (the
      argument of [json.dumps]), oldest first.
    - Code that prints or raises runs in the monad [M]: it threads the
      [World] (standard output, and the calls made to [huggingface_hub]) and
      ends with a value or with a raised object.  The world survives a raise,
      as printed lines do.
    - [huggingface_hub], [os], [os.environ] and the clock are not part of the
      script; they are parameters ([Hub], [OS], the [now] argument).
    - A Python [float] value is a binary64 number, a [spec_float] of
      precision 53; the readings of the clock are kept as rationals. *)

From Stdlib Require Import List String Ascii ZArith NArith QArith Bool Lia Lqa.
From Stdlib Require Import SpecFloat.
Import ListNotations.
Local Open Scope string_scope.
Local Open Scope Z_scope.

(** ** Python values used by the script *)

Definition path := list string.

(** Truth value of an optional string: [None] and [""] are false. *)
Definition truthy (o : option string) : bool :=
  match o with
  | Some s => negb (s =? "")%string
  | None => false
  end.

(** [a or b] on optional strings. *)
Definition py_or (a b : option string) : option string :=
  if truthy a then a else b.

(** [s.split(sep)] for a one-character separator: the pieces between the
    separators, empty pieces included. *)
Fixpoint split_from (sep : ascii) (acc s : string) : list string :=
  match s with
  | EmptyString => [acc]
  | String c s' =>
      if Ascii.eqb c sep then acc :: split_from sep "" s'
      else split_from sep (acc ++ String c "") s'
  end.

Definition split (sep : ascii) (s : string) : list string :=
  split_from sep "" s.

(** [sep.join(l)]. *)
Fixpoint join (sep : ascii) (l : list string) : string :=
  match l with
  | [] => ""
  | [x] => x
  | x :: rest => x ++ String sep (join sep rest)
  end.

(** Does the string hold the character? *)
Fixpoint has_char (c : ascii) (s : string) : bool :=
  match s with
  | EmptyString => false
  | String d s' => Ascii.eqb d c || has_char c s'
  end.

(** Values that appear in the JSON payloads. *)
Inductive jvalue : Type :=
| JNull
| JBool (b : bool)
| JInt (n : Z)
| JFloat (f : spec_float)   (* a float *)
| JStr (s : string)
| JPath (p : path).     (* a str that names a file or a directory *)

(** Values of the keyword arguments handed to [huggingface_hub]. *)
Inductive kwvalue : Type :=
| KStr (s : string)
| KBool (b : bool)
| KList (l : list string).

(** A dict with string keys, in insertion order. *)
Definition dict (V : Type) := list (string * V).

Fixpoint dict_get {V} (k : string) (d : dict V) : option V :=
  match d with
  | [] => None
  | (k', v) :: d' => if (k' =? k)%string then Some v else dict_get k d'
  end.

(** [d[k] = v]. *)
Fixpoint dict_set {V} (k : string) (v : V) (d : dict V) : dict V :=
  match d with
  | [] => [(k, v)]
  | (k', v') :: d' =>
      if (k' =? k)%string then (k, v) :: d' else (k', v') :: dict_set k v d'
  end.

Definition kwargs := dict kwvalue.

(** ** Raised objects and results *)

(** What a [raise] carries.  [except Exception] catches the first kind only;
    [SystemExit] derives from [BaseException] and passes through it. *)
Inductive raised : Type :=
| PyException (cls msg : string)   (* an instance of [Exception]: its class name and [str(e)] *)
| SystemExit (code : Z).

Inductive result (A : Type) : Type :=
| Return (a : A)
| Raise (e : raised).
Arguments Return {A} a.
Arguments Raise {A} e.

(** ** The world: printed events and calls to the library *)

Record event : Type := Event { ev_type : string; ev_data : dict jvalue }.

Inductive hub_call : Type :=
| Call_hf_hub_download (kw : kwargs)
| Call_snapshot_download (kw : kwargs)
| Call_hf_hub_url (repo_id filename revision : string).

Record World : Type := mkWorld {
  stdout : list event;        (* lines printed so far, oldest first *)
  hub_calls : list hub_call   (* calls made so far, oldest first *)
}.

Definition fresh_world : World := mkWorld [] [].

Definition M (A : Type) : Type := World -> World * result A.

Definition ret {A} (a : A) : M A := fun w => (w, Return a).

Definition raise {A} (e : raised) : M A := fun w => (w, Raise e).

Definition bind {A B} (m : M A) (k : A -> M B) : M B :=
  fun w =>
    match m w with
    | (w', Return a) => k a w'
    | (w', Raise e) => (w', Raise e)
    end.

Definition lift {A} (r : result A) : M A := fun w => (w, r).

Declare Scope py_scope.
Delimit Scope py_scope with py.
Notation "x <- m ;; k" := (bind m (fun x => k))
  (at level 61, m at next level, right associativity) : py_scope.
Notation "m ;; k" := (bind m (fun _ => k))
  (at level 61, right associativity) : py_scope.
Local Open Scope py_scope.

(** [try: body / except Exception as e: handler(e)]. *)
Definition try_except_Exception {A}
    (body : M A) (handler : string -> string -> M A) : M A :=
  fun w =>
    match body w with
    | (w', Raise (PyException cls msg)) => handler cls msg w'
    | other => other
    end.

(** [print(json.dumps(output), flush=True)]. *)
Definition print_json (e : event) : M unit :=
  fun w => (mkWorld (stdout w ++ [e]) (hub_calls w), Return tt).

Definition record_call (c : hub_call) : M unit :=
  fun w => (mkWorld (stdout w) (hub_calls w ++ [c]), Return tt).

(** The events a computation printed, given the world before and after. *)
Definition printed (w w' : World) : list event :=
  skipn (List.length (stdout w)) (stdout w').

Definition count_type (ty : string) (evs : list event) : nat :=
  List.length (filter (fun e => (ev_type e =? ty)%string) evs).

(** ** The event helpers (lines 37-64) *)

Definition send_progress (event_type : string) (data : dict jvalue) : M unit :=
  print_json (Event event_type data).

Definition send_error (message : string) (code : string) : M unit :=
  print_json (Event "error" [("message", JStr message); ("code", JStr code)]).

Definition send_complete (result : dict jvalue) : M unit :=
  print_json (Event "complete" result).

(** ** ProgressReporter (lines 67-92) *)

Record ProgressReporter : Type := mkReporter {
  current_bytes : Z;
  total_bytes : Z;
  last_report_time : Q;
  report_interval : Q
}.

(** [__init__]. *)
Definition ProgressReporter_init : ProgressReporter :=
  mkReporter 0 0 0%Q (1 # 2)%Q.

(** binary64: 53 bits of precision, exponents below 1024. *)
Definition prec : Z := 53.
Definition emax : Z := 1024.

(** An int as a number to round: mantissa [a], exponent 0. *)
Definition int_sf (a : Z) : spec_float :=
  match a with
  | Z0 => S754_zero false
  | Zpos p => S754_finite false p 0
  | Zneg p => S754_finite true p 0
  end.

(** [a / b] on ints: the quotient rounded to the nearest float.  It raises
    [ZeroDivisionError] when [b] is 0 and [OverflowError] when the rounded
    quotient is beyond the largest float. *)
Definition py_truediv (a b : Z) : result spec_float :=
  if b =? 0 then Raise (PyException "ZeroDivisionError" "division by zero")
  else
    match SFdiv prec emax (int_sf a) (int_sf b) with
    | S754_infinity _ =>
        Raise (PyException "OverflowError"
                 "integer division result too large for a float")
    | q => Return q
    end.

(** [x * 100] for a float [x]: the product rounded to the nearest float,
    infinite when it is beyond the largest one. *)
Definition times_100 (x : spec_float) : spec_float :=
  SFmul prec emax x (int_sf 100).

(** The conditional expression of line 90. *)
Definition percentage (self : ProgressReporter) : result jvalue :=
  if total_bytes self >? 0 then
    match py_truediv (current_bytes self) (total_bytes self) with
    | Return q => Return (JFloat (times_100 q))
    | Raise e => Raise e
    end
  else Return (JInt 0).

(** [report(self, progress, current, total)]; [now] is what [time.time()]
    returns in this call.  The method assigns to the fields of [self], so
    the state of [self] after the call is part of the outcome also when the
    call raises: the assignments of lines 81-84 come before the division. *)
Definition report (self : ProgressReporter) (now : Q)
    (current total : option Z) (w : World)
    : World * ProgressReporter * result unit :=
  let self :=
    match total with
    | Some t => mkReporter (current_bytes self) t
                  (last_report_time self) (report_interval self)
    | None => self
    end in
  let self :=
    match current with
    | Some c => mkReporter c (total_bytes self)
                  (last_report_time self) (report_interval self)
    | None => self
    end in
  if Qle_bool (report_interval self) (now - last_report_time self)%Q then
    match percentage self with
    | Raise e => (w, self, Raise e)
    | Return pct =>
        match send_progress "progress"
                [("current", JInt (current_bytes self));
                 ("total", JInt (total_bytes self));
                 ("percentage", pct)] w with
        | (w', Raise e) => (w', self, Raise e)
        | (w', Return _) =>
            (w',
             mkReporter (current_bytes self) (total_bytes self)
               now (report_interval self),
             Return tt)
        end
    end
  else (w, self, Return tt).

(** ** The collaborators *)

(** [huggingface_hub]: each function returns a value or raises. *)
Record Hub : Type := mkHub {
  hf_hub_download : kwargs -> result path;
  snapshot_download : kwargs -> result path;
  hf_hub_url : string -> string -> string -> result string
}.

(** The parts of [os] and [os.path] the script calls.  [os.walk] yields
    triples [(root, dirs, files)]; it swallows its own scan errors. *)
Record OS : Type := mkOS {
  os_path_exists : path -> bool;
  os_path_islink : path -> bool;
  os_path_getsize : path -> result N;
  os_walk : path -> list (path * list string * list string)
}.

(** [os.environ.get]. *)
Definition environ := string -> option string.

Definition os_path_join (root : path) (name : string) : path :=
  (root ++ [name])%list.

(** The namespace returned by [parser.parse_args()] (lines 279-291). *)
Record Args : Type := mkArgs {
  repo_id : option string;
  filename : option string;
  dest : option string;
  revision : string;                 (* default "main" *)
  token : option string;
  cache_dir : option string;
  snapshot : bool;                   (* store_true *)
  allow_patterns : option string;
  ignore_patterns : option string;
  url_only : bool;                   (* store_true *)
  check : bool                       (* store_true *)
}.

(** [parser.error(...)]: prints the usage on stderr and exits with status 2. *)
Definition parser_error {A} : M A := raise (SystemExit 2).

(** What [main] returns: [0], or the URL in [--url-only] mode. *)
Inductive pyret : Type :=
| RInt (n : Z)
| RStr (s : string).

Section Script.

Variable hub : Hub.
Variable os : OS.
Variable env : environ.

(** [if o: kw[k] = o]. *)
Definition set_if_truthy (k : string) (o : option string) (kw : kwargs) : kwargs :=
  match o with
  | Some s => if truthy o then dict_set k (KStr s) kw else kw
  | None => kw
  end.

Definition set_if_nonempty (k : string) (o : option (list string)) (kw : kwargs) : kwargs :=
  match o with
  | Some (x :: l) => dict_set k (KList (x :: l)) kw
  | _ => kw
  end.

(** [if o: kw["local_dir"] = o; kw["local_dir_use_symlinks"] = False]. *)
Definition set_local_dir (o : option string) (kw : kwargs) : kwargs :=
  match o with
  | Some s =>
      if truthy o then
        dict_set "local_dir_use_symlinks" (KBool false)
          (dict_set "local_dir" (KStr s) kw)
      else kw
  | None => kw
  end.

(** Lines 118-131: the keyword arguments of [hf_hub_download].  The
    parameter [dest] of [download_single_file] does not occur in them. *)
Definition single_file_kwargs (repo_id filename revision : string)
    (token cache_dir local_dir : option string) : kwargs :=
  let kw := [("repo_id", KStr repo_id); ("filename", KStr filename);
             ("revision", KStr revision)] in
  let kw := set_if_truthy "token" token kw in
  let kw := set_if_truthy "cache_dir" cache_dir kw in
  set_local_dir local_dir kw.

(** Lines 95-153. *)
Definition download_single_file (repo_id filename : string)
    (dest : option string) (revision : string)
    (token cache_dir local_dir : option string) : M (dict jvalue) :=
  try_except_Exception
    (send_progress "start"
       [("repo_id", JStr repo_id); ("filename", JStr filename);
        ("revision", JStr revision)] ;;
     let kw := single_file_kwargs repo_id filename revision
                 token cache_dir local_dir in
     record_call (Call_hf_hub_download kw) ;;
     file_path <- lift (hf_hub_download hub kw) ;;
     file_size <- lift (if os_path_exists os file_path
                        then match os_path_getsize os file_path with
                             | Return n => Return (Z.of_N n)
                             | Raise e => Raise e
                             end
                        else Return 0) ;;
     send_complete
       [("file_path", JPath file_path); ("file_size", JInt file_size);
        ("repo_id", JStr repo_id); ("filename", JStr filename)] ;;
     ret [("file_path", JPath file_path); ("file_size", JInt file_size)])
    (fun cls msg => send_error msg cls ;; raise (PyException cls msg)).

(** Lines 180-196: the keyword arguments of [snapshot_download]. *)
Definition snapshot_kwargs (repo_id : string) (dest : option string)
    (revision : string) (token cache_dir : option string)
    (allow_patterns ignore_patterns : option (list string)) : kwargs :=
  let kw := [("repo_id", KStr repo_id); ("revision", KStr revision)] in
  let kw := set_if_truthy "token" token kw in
  let kw := set_if_truthy "cache_dir" cache_dir kw in
  let kw := set_if_nonempty "allow_patterns" allow_patterns kw in
  let kw := set_if_nonempty "ignore_patterns" ignore_patterns kw in
  set_local_dir dest kw.

(** Lines 206-210: the inner loop over the files of one directory.  The
    accumulator is [(total_size, file_count)]. *)
Fixpoint count_in_dir (root : path) (files : list string) (acc : Z * Z)
    : result (Z * Z) :=
  match files with
  | [] => Return acc
  | file :: rest =>
      let file_path := os_path_join root file in
      if os_path_exists os file_path && negb (os_path_islink os file_path) then
        match os_path_getsize os file_path with
        | Return n => count_in_dir root rest (fst acc + Z.of_N n, snd acc + 1)
        | Raise e => Raise e
        end
      else count_in_dir root rest acc
  end.

(** Line 205: the outer loop over what [os.walk] yields. *)
Fixpoint count_walk (triples : list (path * list string * list string))
    (acc : Z * Z) : result (Z * Z) :=
  match triples with
  | [] => Return acc
  | (root, _, files) :: rest =>
      match count_in_dir root files acc with
      | Return acc' => count_walk rest acc'
      | Raise e => Raise e
      end
  end.

(** Lines 201-210: [(total_size, file_count)] of the snapshot. *)
Definition count_files (snapshot_path : path) : result (Z * Z) :=
  if os_path_exists os snapshot_path
  then count_walk (os_walk os snapshot_path) (0, 0)
  else Return (0, 0).

(** Lines 156-227. *)
Definition download_snapshot (repo_id : string) (dest : option string)
    (revision : string) (token cache_dir : option string)
    (allow_patterns ignore_patterns : option (list string)) : M (dict jvalue) :=
  try_except_Exception
    (send_progress "start"
       [("repo_id", JStr repo_id); ("revision", JStr revision);
        ("type", JStr "snapshot")] ;;
     let kw := snapshot_kwargs repo_id dest revision token cache_dir
                 allow_patterns ignore_patterns in
     record_call (Call_snapshot_download kw) ;;
     snapshot_path <- lift (snapshot_download hub kw) ;;
     totals <- lift (count_files snapshot_path) ;;
     let total_size := fst totals in
     let file_count := snd totals in
     send_complete
       [("snapshot_path", JPath snapshot_path); ("file_count", JInt file_count);
        ("total_size", JInt total_size); ("repo_id", JStr repo_id)] ;;
     ret [("snapshot_path", JPath snapshot_path);
          ("file_count", JInt file_count); ("total_size", JInt total_size)])
    (fun cls msg => send_error msg cls ;; raise (PyException cls msg)).

(** Lines 230-242. *)
Definition get_file_url (repo_id filename revision : string) : M string :=
  try_except_Exception
    (record_call (Call_hf_hub_url repo_id filename revision) ;;
     url <- lift (hf_hub_url hub repo_id filename revision) ;;
     send_complete
       [("url", JStr url); ("repo_id", JStr repo_id);
        ("filename", JStr filename)] ;;
     ret url)
    (fun cls msg => send_error msg cls ;; raise (PyException cls msg)).

(** Lines 245-250; [HF_AVAILABLE] is the module-level flag. *)
Definition check_available (HF_AVAILABLE : bool) : M unit :=
  send_complete [("available", JBool HF_AVAILABLE); ("version", JNull)].

(** Lines 301-303. *)
Definition resolve_token (args : Args) : option string :=
  if negb (truthy (token args)) then env "HF_TOKEN" else token args.

(** Lines 305-307. *)
Definition resolve_cache_dir (args : Args) : option string :=
  if negb (truthy (cache_dir args))
  then py_or (env "HF_HUB_CACHE") (env "HUGGINGFACE_HUB_CACHE")
  else cache_dir args.

(** Lines 317-318: [p.split(",") if p else None]. *)
Definition split_patterns (p : option string) : option (list string) :=
  match p with
  | Some s => if truthy p then Some (split "," s) else None
  | None => None
  end.

(** Lines 293-343, after [parse_args]. *)
Definition main (HF_AVAILABLE : bool) (args : Args) : M pyret :=
  if check args then
    check_available HF_AVAILABLE ;; ret (RInt 0)
  else
    match repo_id args with
    | None => parser_error
    | Some repo =>
      if negb (truthy (repo_id args)) then parser_error else
      let token := resolve_token args in
      let cache_dir := resolve_cache_dir args in
      if url_only args then
        match filename args with
        | None => parser_error
        | Some file =>
            if negb (truthy (filename args)) then parser_error else
            url <- get_file_url repo file (revision args) ;;
            ret (RStr url)
        end
      else if snapshot args then
        let allow := split_patterns (allow_patterns args) in
        let ignore := split_patterns (ignore_patterns args) in
        download_snapshot repo (dest args) (revision args) token cache_dir
          allow ignore ;;
        ret (RInt 0)
      else
        match filename args with
        | None => parser_error
        | Some file =>
            if negb (truthy (filename args)) then parser_error else
            download_single_file repo file (dest args) (revision args)
              token cache_dir None ;;
            ret (RInt 0)
        end
    end.

(** [sys.exit(v)] and the interpreter's exit on an uncaught raise: the
    process exit status.  A str argument is printed on stderr and gives 1;
    an uncaught exception prints its traceback and gives 1. *)
Definition exit_status (r : result pyret) : Z :=
  match r with
  | Return (RInt n) => n
  | Return (RStr _) => 1
  | Raise (PyException _ _) => 1
  | Raise (SystemExit code) => code
  end.

(** The whole script for one command line.  [import_ok] tells whether
    [import huggingface_hub] succeeds (lines 26-34): when it does not, the
    flag is set to False and the script exits with status 1 at once.
    Otherwise lines 346-347 run [sys.exit(main())]. *)
Definition run_script (import_ok : bool) (args : Args) : World * Z :=
  if import_ok then
    let HF_AVAILABLE := true in
    let '(w, r) := main HF_AVAILABLE args fresh_world in
    (w, exit_status r)
  else
    (fresh_world, 1).

End Script.

(** ** A file system as a tree

    The tree the [os] functions read.  A directory lists its entries in the
    order [os.scandir] yields them; a symbolic link holds what it points to
    ([None] when it dangles). *)

#[local] Unset Elimination Schemes.
Inductive node : Type :=
| File (size : N)
| Link (target : option node)
| Dir (entries : list (string * node)).
#[local] Set Elimination Schemes.

(** Resolve the links at the node itself, as [os.stat] does. *)
Fixpoint follow (n : node) : option node :=
  match n with
  | Link (Some t) => follow t
  | Link None => None
  | _ => Some n
  end.

Definition is_dir (n : node) : bool :=
  match follow n with
  | Some (Dir _) => true
  | _ => false
  end.

(** [os.lstat] of the path [q] taken from node [n]: links are followed in
    every component but the last. *)
Fixpoint lookup_rel (n : node) (q : path) : option node :=
  match q with
  | [] => Some n
  | name :: q' =>
      match follow n with
      | Some (Dir es) =>
          match dict_get name es with
          | Some c => lookup_rel c q'
          | None => None
          end
      | _ => None
      end
  end.

(** [os.walk(top)] below a directory node, top-down, [followlinks=False]:
    an entry is listed in [dirs] when [is_dir] holds of it, links included,
    and the walk descends only into entries that are directories themselves. *)
Fixpoint walk (top : path) (n : node) : list (path * list string * list string) :=
  match n with
  | Dir es =>
      (top,
       map fst (filter (fun e => is_dir (snd e)) es),
       map fst (filter (fun e => negb (is_dir (snd e))) es))
      :: flat_map
           (fun e =>
              match snd e with
              | Dir _ => walk (os_path_join top (fst e)) (snd e)
              | _ => []
              end) es
  | _ => []
  end.

Section TreeOS.

Variable root : node.      (* the directory [/] *)
Variable dir_size : N.     (* [st_size] of a directory *)

Definition lstat (p : path) : option node := lookup_rel root p.

Definition stat (p : path) : option node :=
  match lstat p with
  | Some n => follow n
  | None => None
  end.

Definition tree_exists (p : path) : bool :=
  match stat p with Some _ => true | None => false end.

Definition tree_islink (p : path) : bool :=
  match lstat p with Some (Link _) => true | _ => false end.

Definition tree_getsize (p : path) : result N :=
  match stat p with
  | Some (File n) => Return n
  | Some _ => Return dir_size
  | None => Raise (PyException "FileNotFoundError"
                     "[Errno 2] No such file or directory")
  end.

Definition tree_walk (p : path) : list (path * list string * list string) :=
  match stat p with
  | Some d => walk p d
  | None => []
  end.

Definition tree_os : OS :=
  mkOS tree_exists tree_islink tree_getsize tree_walk.

End TreeOS.

(** Names are unique in every directory of the tree, also behind links. *)
Fixpoint unique_names {V} (d : dict V) : bool :=
  match d with
  | [] => true
  | (k, _) :: d' => negb (existsb (String.eqb k) (map fst d')) && unique_names d'
  end.

Fixpoint well_formed (n : node) : bool :=
  match n with
  | Dir es => unique_names es && forallb (fun e => well_formed (snd e)) es
  | Link (Some t) => well_formed t
  | _ => true
  end.

(** The spec's words for the aggregates: the sizes of the files under a
    node that are not symbolic links, links not followed. *)
Fixpoint regular_files (n : node) : list N :=
  match n with
  | File s => [s]
  | Link _ => []
  | Dir es => flat_map (fun e => regular_files (snd e)) es
  end.

(** The files under the directory tree at path [p]. *)
Definition files_under (root : node) (p : path) : list N :=
  match stat root p with
  | Some (Dir es) => regular_files (Dir es)
  | _ => []
  end.

Definition sum_sizes (l : list N) : Z :=
  fold_right (fun s acc => Z.of_N s + acc) 0 l.

(** A root with a snapshot at [cache/snap]: three files, a link to a file,
    a dangling link and a link to a directory. *)
Definition sample_tree : node :=
  Dir [("cache", Dir [("snap", Dir
         [("config.json", File 10);
          ("weights", Link (Some (File 700)));
          ("sub", Dir [("a.bin", File 5); ("gone", Link None)]);
          ("alias", Link (Some (Dir [("x", File 3)])));
          ("b.txt", File 7)])])].

(** ** Command lines used in the examples *)

Definition no_env : environ := fun _ => None.

(** [--repo-id gpt2 --filename config.json --dest ./models] *)
Definition args_single_dest : Args :=
  mkArgs (Some "gpt2") (Some "config.json") (Some "./models") "main"
    None None false None None false false.

(** [--check] *)
Definition args_check : Args :=
  mkArgs None None None "main" None None false None None false true.

(** [--repo-id gpt2 --snapshot --allow-patterns a,b,c] *)
Definition args_snapshot_abc : Args :=
  mkArgs (Some "gpt2") None None "main" None None true (Some "a,b,c") None
    false false.

(** [--repo-id gpt2 --filename config.json --url-only] *)
Definition args_url : Args :=
  mkArgs (Some "gpt2") (Some "config.json") None "main" None None false
    None None true false.

(** [HF_HUB_CACHE=] (set, empty) and [HUGGINGFACE_HUB_CACHE=/x]. *)
Definition env_empty_hf_cache : environ :=
  fun k =>
    if (k =? "HF_HUB_CACHE")%string then Some ""
    else if (k =? "HUGGINGFACE_HUB_CACHE")%string then Some "/x"
    else None.

(** A library whose every call raises [ConnectionError]. *)
Definition hub_offline : Hub :=
  mkHub (fun _ => Raise (PyException "ConnectionError" "offline"))
        (fun _ => Raise (PyException "ConnectionError" "offline"))
        (fun _ _ _ => Raise (PyException "ConnectionError" "offline")).

(** A library that puts everything at [cache/snap]. *)
Definition hub_sample : Hub :=
  mkHub (fun _ => Return ["cache"; "snap"; "config.json"])
        (fun _ => Return ["cache"; "snap"])
        (fun r f v => Return ("https://huggingface.co/" ++ r ++ "/resolve/"
                                ++ v ++ "/" ++ f)).

Definition sample_os : OS := tree_os sample_tree 4096.

(** ** Definitions used in the statements *)

(** The spec's words: the first defined variable wins. *)
Definition cache_dir_first_defined (env : environ) : option string :=
  match env "HF_HUB_CACHE" with
  | Some v => Some v
  | None => env "HUGGINGFACE_HUB_CACHE"
  end.

(** C6 as it is stated, for one environment and command line. *)
Definition cache_dir_claim (env : environ) (args : Args) : Prop :=
  cache_dir args = None ->
  resolve_cache_dir env args = cache_dir_first_defined env.

(** The command lines on which [main] reaches the snapshot download. *)
Definition snapshot_invocation (args : Args) : bool :=
  negb (check args) && truthy (repo_id args) && negb (url_only args)
  && snapshot args.

(** The string of an argument that is known to be given. *)
Definition unwrap (o : option string) : string :=
  match o with Some s => s | None => "" end.

(** The command lines on which [main] reaches [--url-only] resolution. *)
Definition url_invocation (args : Args) : bool :=
  negb (check args) && truthy (repo_id args) && url_only args
  && truthy (filename args).

(** The command lines on which [main] reaches the single-file download. *)
Definition single_invocation (args : Args) : bool :=
  negb (check args) && truthy (repo_id args) && negb (url_only args)
  && negb (snapshot args) && truthy (filename args).

(** The operation the command line selects fails with an exception of
    class [cls] and message [msg]: the library function, called with the
    arguments that mode builds, raises it, or it returns and the inspection
    of the file system that follows raises it. *)
Inductive operation_fails (hub : Hub) (os : OS) (env : environ) (args : Args)
    (cls msg : string) : Prop :=
| url_fails :
    url_invocation args = true ->
    hf_hub_url hub (unwrap (repo_id args)) (unwrap (filename args))
      (revision args) = Raise (PyException cls msg) ->
    operation_fails hub os env args cls msg
| single_download_fails :
    single_invocation args = true ->
    hf_hub_download hub
      (single_file_kwargs (unwrap (repo_id args)) (unwrap (filename args))
         (revision args) (resolve_token env args)
         (resolve_cache_dir env args) None)
      = Raise (PyException cls msg) ->
    operation_fails hub os env args cls msg
| single_getsize_fails p :
    single_invocation args = true ->
    hf_hub_download hub
      (single_file_kwargs (unwrap (repo_id args)) (unwrap (filename args))
         (revision args) (resolve_token env args)
         (resolve_cache_dir env args) None)
      = Return p ->
    os_path_exists os p = true ->
    os_path_getsize os p = Raise (PyException cls msg) ->
    operation_fails hub os env args cls msg
| snapshot_download_fails :
    snapshot_invocation args = true ->
    snapshot_download hub
      (snapshot_kwargs (unwrap (repo_id args)) (dest args) (revision args)
         (resolve_token env args) (resolve_cache_dir env args)
         (split_patterns (allow_patterns args))
         (split_patterns (ignore_patterns args)))
      = Raise (PyException cls msg) ->
    operation_fails hub os env args cls msg
| snapshot_aggregation_fails p :
    snapshot_invocation args = true ->
    snapshot_download hub
      (snapshot_kwargs (unwrap (repo_id args)) (dest args) (revision args)
         (resolve_token env args) (resolve_cache_dir env args)
         (split_patterns (allow_patterns args))
         (split_patterns (ignore_patterns args)))
      = Return p ->
    count_files os p = Raise (PyException cls msg) ->
    operation_fails hub os env args cls msg.

(** C7 as it is stated, for [--allow-patterns] on one command line: a given
    pattern string arrives split at the commas, an omitted one is absent. *)
Definition patterns_claim (hub : Hub) (os : OS) (env : environ)
    (args : Args) : Prop :=
  exists kw,
    hub_calls (fst (run_script hub os env true args))
      = [Call_snapshot_download kw]
    /\ (forall s, allow_patterns args = Some s ->
          dict_get "allow_patterns" kw = Some (KList (split "," s)))
    /\ (allow_patterns args = None -> dict_get "allow_patterns" kw = None).

(** [--repo-id gpt2 --snapshot --allow-patterns ""] *)
Definition args_snapshot_empty_patterns : Args :=
  mkArgs (Some "gpt2") None None "main" None None true (Some "") None
    false false.

(** A file system where the file vanishes between [os.path.exists] and
    [os.path.getsize]. *)
Definition racy_os : OS :=
  mkOS (fun _ => true) (fun _ => false)
       (fun _ => Raise (PyException "FileNotFoundError"
                          "[Errno 2] No such file or directory"))
       (fun p => [(p, [], ["config.json"])]).

(** One call of [report]: what [time.time()] returns and the arguments. *)
Record report_call : Type := mkCall {
  at_time : Q;
  arg_current : option Z;
  arg_total : option Z
}.

(** The reporter's [total_bytes] and [current_bytes] after the two
    assignments of lines 81-84. *)
Definition total_after (self : ProgressReporter) (total : option Z) : Z :=
  match total with Some t => t | None => total_bytes self end.

Definition current_after (self : ProgressReporter) (current : option Z) : Z :=
  match current with Some c => c | None => current_bytes self end.

(** What one call of a sequence did: the time it read, the events it
    printed and how it ended. *)
Record log_entry : Type := mkEntry {
  le_time : Q;
  le_events : list event;
  le_result : result unit
}.

(** A sequence of calls on one reporter.  The caller goes on after a call
    that raised, with the fields as that call left them; a caller that
    stops there sees a prefix of the log. *)
Fixpoint report_log (self : ProgressReporter) (cs : list report_call)
    (w : World) : list log_entry :=
  match cs with
  | [] => []
  | c :: cs' =>
      let '(w', self', r) :=
        report self (at_time c) (arg_current c) (arg_total c) w in
      mkEntry (at_time c) (printed w w') r :: report_log self' cs' w'
  end.

(** Four calls: at 1000 s, 0.2 s later, 0.7 s later, and one 1.5 s later
    whose quotient is too large for a float. *)
Definition sample_calls : list report_call :=
  [mkCall 1000 (Some 10) (Some 100);
   mkCall (5001 # 5) (Some 20) None;
   mkCall (10007 # 10) (Some 70) None;
   mkCall (2003 # 2) (Some (2 ^ 1024)) (Some 1)].

(** What the calls print, call by call. *)
Definition sample_log : list log_entry :=
  Eval vm_compute in report_log ProgressReporter_init sample_calls fresh_world.

Definition sample_first : log_entry :=
  nth 0 sample_log (mkEntry 0 [] (Return tt)).
Definition sample_third : log_entry :=
  nth 2 sample_log (mkEntry 0 [] (Return tt)).

(** The files of a directory proper, and those of its subdirectories. *)
Definition direct_files (es : list (string * node)) : list N :=
  flat_map (fun e => match snd e with File s => [s] | _ => [] end) es.

Definition deep_files (es : list (string * node)) : list N :=
  flat_map (fun e => match snd e with
                     | Dir _ => regular_files (snd e)
                     | _ => []
                     end) es.

(** The accumulator [(total_size, file_count)] after the files [l]. *)
Definition add_files (acc : Z * Z) (l : list N) : Z * Z :=
  (fst acc + sum_sizes l, snd acc + Z.of_nat (List.length l)).

(** ** Definitions used in the further properties *)

(** The command lines on which [main] calls [parser.error]. *)
Definition usage_error (args : Args) : bool :=
  negb (check args)
  && (negb (truthy (repo_id args))
      || (if url_only args then negb (truthy (filename args))
          else negb (snapshot args) && negb (truthy (filename args)))).

(** The keyword arguments of a call ([hf_hub_url] takes none). *)
Definition call_kwargs (c : hub_call) : kwargs :=
  match c with
  | Call_hf_hub_download kw => kw
  | Call_snapshot_download kw => kw
  | Call_hf_hub_url _ _ _ => []
  end.

(** The first of the values that is a non-empty string. *)
Fixpoint first_truthy (l : list (option string)) : option string :=
  match l with
  | [] => None
  | o :: l' => if truthy o then o else first_truthy l'
  end.


(** The world and the reporter after a sequence of [report] calls, the
    caller going on after a call that raised. *)
Fixpoint run_reports (self : ProgressReporter) (cs : list report_call)
    (w : World) : World * ProgressReporter :=
  match cs with
  | [] => (w, self)
  | c :: cs' =>
      let '(w', self', _) :=
        report self (at_time c) (arg_current c) (arg_total c) w in
      run_reports self' cs' w'
  end.

(** The last value given among the calls, [d] when none was. *)
Definition latest (f : report_call -> option Z) (cs : list report_call)
    (d : Z) : Z :=
  fold_left (fun acc c => match f c with Some v => v | None => acc end) cs d.

(** The number of file names [os.walk] lists. *)
Definition listed_files (triples : list (path * list string * list string))
    : nat :=
  fold_right (fun t n => (List.length (snd t) + n)%nat) 0%nat triples.

(** The number of separators in a string. *)
Fixpoint count_char (c : ascii) (s : string) : nat :=
  match s with
  | EmptyString => 0
  | String d s' => ((if Ascii.eqb d c then 1 else 0) + count_char c s')%nat
  end.

(** Every file below the node is reached through a symbolic link, as in
    the snapshot directories of the library's cache, whose files are links
    into [blobs]. *)
Fixpoint only_links (n : node) : bool :=
  match n with
  | File _ => false
  | Link _ => true
  | Dir es => forallb (fun e => only_links (snd e)) es
  end.

(** A cache whose snapshot holds links only. *)
Definition cache_tree : node :=
  Dir [("blobs", Dir [("abc", File 548); ("def", File 1042)]);
       ("snapshots", Dir [("main", Dir
          [("config.json", Link (Some (File 548)));
           ("onnx", Dir [("model.onnx", Link (Some (File 1042)))])])])].

(** A library that puts the snapshot at [snapshots/main]. *)
Definition hub_cache : Hub :=
  mkHub (fun _ => Return ["snapshots"; "main"; "config.json"])
        (fun _ => Return ["snapshots"; "main"])
        (fun _ _ _ => Return "").

(** [--repo-id gpt2 --snapshot --dest ./models --token cli] *)
Definition args_snapshot_dest : Args :=
  mkArgs (Some "gpt2") None (Some "./models") "main" (Some "cli") None true
    None None false false.

(** [--filename config.json], without [--repo-id]. *)
Definition args_no_repo : Args :=
  mkArgs None (Some "config.json") None "main" None None false None None
    false false.

(** [HF_TOKEN=secret]. *)
Definition env_token : environ :=
  fun k => if (k =? "HF_TOKEN")%string then Some "secret" else None.

(** * Properties *)

(** ** Running the monad *)

Ltac run_py :=
  cbv [main download_single_file download_snapshot get_file_url
       check_available try_except_Exception bind ret raise lift
       send_progress send_error send_complete print_json record_call
       parser_error run_script exit_status] in *;
  cbn [stdout hub_calls fst snd app fresh_world] in *.

(** Case analysis on an innermost scrutinee of the goal. *)
Ltac break_match :=
  match goal with
  | |- context [match ?x with _ => _ end] =>
      lazymatch x with
      | context [match _ with _ => _ end] => fail
      | _ => destruct x eqn:?
      end
  end.

Lemma printed_app (w w' : World) (evs : list event) :
  stdout w' = (stdout w ++ evs)%list -> printed w w' = evs.
Proof.
  unfold printed. intros ->.
  induction (stdout w) as [|e l IH]; simpl; auto.
Qed.

Lemma printed_one (w : World) (a : event) (calls : list hub_call) :
  printed w (mkWorld (stdout w ++ [a]) calls) = [a].
Proof. now apply printed_app. Qed.

Lemma printed_two (w : World) (a b : event) (calls : list hub_call) :
  printed w (mkWorld ((stdout w ++ [a]) ++ [b]) calls) = [a; b].
Proof. apply printed_app. simpl. now rewrite <- app_assoc. Qed.

Lemma count_type_app (ty : string) (l1 l2 : list event) :
  count_type ty (l1 ++ l2) = (count_type ty l1 + count_type ty l2)%nat.
Proof.
  unfold count_type. rewrite filter_app, length_app. reflexivity.
Qed.

(** ** Dicts *)

Lemma dict_get_set_eq {V} (k : string) (v : V) (d : dict V) :
  dict_get k (dict_set k v d) = Some v.
Proof.
  induction d as [|[k' v'] d IH]; simpl.
  - now rewrite String.eqb_refl.
  - destruct (k' =? k)%string eqn:E; simpl.
    + now rewrite String.eqb_refl.
    + now rewrite E.
Qed.

Lemma dict_get_set_neq {V} (k k' : string) (v : V) (d : dict V) :
  k <> k' -> dict_get k (dict_set k' v d) = dict_get k d.
Proof.
  intros Hne. induction d as [|[k0 v0] d IH]; simpl.
  - destruct (k' =? k)%string eqn:E; auto.
    apply String.eqb_eq in E. congruence.
  - destruct (k0 =? k')%string eqn:E; simpl.
    + apply String.eqb_eq in E. subst k0.
      destruct (k' =? k)%string eqn:E'; auto.
      apply String.eqb_eq in E'. congruence.
    + destruct (k0 =? k)%string; auto.
Qed.

Lemma dict_get_set_if_truthy (k k' : string) (o : option string) (kw : kwargs) :
  k <> k' -> dict_get k (set_if_truthy k' o kw) = dict_get k kw.
Proof.
  intros Hne. unfold set_if_truthy.
  destruct o; auto. destruct (truthy _); auto using dict_get_set_neq.
Qed.

Lemma dict_get_set_if_nonempty (k k' : string) o (kw : kwargs) :
  k <> k' -> dict_get k (set_if_nonempty k' o kw) = dict_get k kw.
Proof.
  intros Hne. unfold set_if_nonempty.
  destruct o as [[|x l]|]; auto using dict_get_set_neq.
Qed.

Lemma dict_get_set_local_dir (k : string) (o : option string) (kw : kwargs) :
  k <> "local_dir" -> k <> "local_dir_use_symlinks" ->
  dict_get k (set_local_dir o kw) = dict_get k kw.
Proof.
  intros H1 H2. unfold set_local_dir.
  destruct o; auto. destruct (truthy _); auto.
  now rewrite !dict_get_set_neq.
Qed.

(** ** [split] *)

Lemma split_from_nonempty (sep : ascii) (s acc : string) :
  split_from sep acc s <> [].
Proof.
  revert acc. induction s as [|c s IH]; intros acc; simpl.
  - discriminate.
  - destruct (Ascii.eqb c sep); [discriminate | apply IH].
Qed.

Lemma append_assoc (a b c : string) : ((a ++ b) ++ c = a ++ (b ++ c))%string.
Proof. induction a; simpl; congruence. Qed.

Lemma append_empty_r (a : string) : (a ++ "" = a)%string.
Proof. induction a; simpl; congruence. Qed.

Lemma join_cons (sep : ascii) (x : string) (l : list string) :
  l <> [] -> join sep (x :: l) = (x ++ String sep (join sep l))%string.
Proof. destruct l; [congruence | reflexivity]. Qed.

(** Joining the pieces with the separator gives the string back. *)
Lemma join_split_from (sep : ascii) (s acc : string) :
  join sep (split_from sep acc s) = (acc ++ s)%string.
Proof.
  revert acc. induction s as [|c s IH]; intros acc; cbn [split_from].
  - simpl. now rewrite append_empty_r.
  - destruct (Ascii.eqb c sep) eqn:E.
    + apply Ascii.eqb_eq in E. subst c.
      rewrite join_cons by apply split_from_nonempty.
      rewrite IH. reflexivity.
    + rewrite IH, append_assoc. reflexivity.
Qed.

Lemma join_split (sep : ascii) (s : string) : join sep (split sep s) = s.
Proof. apply (join_split_from sep s ""). Qed.

Lemma has_char_append (c : ascii) (a b : string) :
  has_char c (a ++ b) = has_char c a || has_char c b.
Proof.
  induction a as [|d a IH]; simpl; auto.
  rewrite IH. now rewrite orb_assoc.
Qed.

(** No piece holds the separator. *)
Lemma split_from_no_sep (sep : ascii) (s acc : string) :
  has_char sep acc = false ->
  Forall (fun x => has_char sep x = false) (split_from sep acc s).
Proof.
  revert acc. induction s as [|c s IH]; intros acc Hacc; simpl.
  - constructor; auto.
  - destruct (Ascii.eqb c sep) eqn:E.
    + constructor; auto.
    + apply IH. rewrite has_char_append, Hacc. simpl. now rewrite E.
Qed.

Lemma split_no_sep (sep : ascii) (s : string) :
  Forall (fun x => has_char sep x = false) (split sep s).
Proof. now apply split_from_no_sep. Qed.

(** ** The destination of a single-file download *)

(** [download_single_file] never reads its parameter [dest]. *)
Lemma download_single_file_ignores_dest (hub : Hub) (os : OS)
    (repo file rev : string) (d d' tok cd ld : option string) :
  download_single_file hub os repo file d rev tok cd ld
  = download_single_file hub os repo file d' rev tok cd ld.
Proof. reflexivity. Qed.

(** C4, evaluated at [--repo-id gpt2 --filename config.json --dest ./models]
    with no environment variable set: whatever the library and the file
    system do, the only call made is [hf_hub_download] with the three
    keyword arguments [repo_id], [filename] and [revision]; the destination
    [./models] is not among them. *)
Theorem single_file_dest_not_delegated (hub : Hub) (os : OS) :
  hub_calls (fst (run_script hub os no_env true args_single_dest))
  = [Call_hf_hub_download
       [("repo_id", KStr "gpt2"); ("filename", KStr "config.json");
        ("revision", KStr "main")]].
Proof.
  unfold run_script, args_single_dest, no_env. run_py.
  cbv [single_file_kwargs set_if_truthy set_local_dir resolve_token
       resolve_cache_dir py_or truthy token cache_dir repo_id filename
       check url_only snapshot dest revision negb String.eqb Ascii.eqb
       Bool.eqb].
  repeat break_match; reflexivity.
Qed.

(** The sibling path: [download_snapshot] hands a destination over as
    [local_dir]. *)
Lemma snapshot_dest_delegated (repo rev d : string) tok cd allow ignore :
  d <> "" ->
  dict_get "local_dir"
    (snapshot_kwargs repo (Some d) rev tok cd allow ignore) = Some (KStr d).
Proof.
  intros Hd. unfold snapshot_kwargs, set_local_dir, truthy.
  destruct (d =? "")%string eqn:E.
  - apply String.eqb_eq in E. contradiction.
  - cbn [negb]. rewrite dict_get_set_neq by discriminate.
    apply dict_get_set_eq.
Qed.

(** ** The availability check *)


(** C5, evaluated at [--check] where [huggingface_hub] cannot be imported:
    the import guard exits with status 1 before [main] runs, so nothing is
    printed, no "complete" event in particular. *)
Theorem check_without_library_exits_1 (hub : Hub) (os : OS) (env : environ) :
  run_script hub os env false args_check = (fresh_world, 1)
  /\ count_type "complete"
       (stdout (fst (run_script hub os env false args_check))) = 0%nat.
Proof. split; reflexivity. Qed.

(** ** Cache directory resolution *)

(** C6 as stated fails when [HF_HUB_CACHE] is set to the empty string and
    [HUGGINGFACE_HUB_CACHE] to [/x]: [--cache-dir] is omitted, both
    variables are set, and the value used is [/x], which is also what
    [hf_hub_download] receives. *)
Lemma cache_dir_empty_variable_counterexample :
  ~ cache_dir_claim env_empty_hf_cache args_single_dest
  /\ resolve_cache_dir env_empty_hf_cache args_single_dest = Some "/x"
  /\ hub_calls (fst (run_script hub_sample sample_os env_empty_hf_cache true
                       args_single_dest))
     = [Call_hf_hub_download
          [("repo_id", KStr "gpt2"); ("filename", KStr "config.json");
           ("revision", KStr "main"); ("cache_dir", KStr "/x")]].
Proof.
  split; [|split]; [|reflexivity|reflexivity].
  intros H. specialize (H eq_refl). discriminate H.
Qed.

(** C6 as amended: when [--cache-dir] is omitted, the value used is
    [HF_HUB_CACHE] if that variable is set to a non-empty string, otherwise
    [HUGGINGFACE_HUB_CACHE] if set, otherwise none. *)
Theorem cache_dir_resolution (env : environ) (args : Args) :
  cache_dir args = None ->
  resolve_cache_dir env args
  = match env "HF_HUB_CACHE" with
    | Some v => if (v =? "")%string then env "HUGGINGFACE_HUB_CACHE" else Some v
    | None => env "HUGGINGFACE_HUB_CACHE"
    end.
Proof.
  intros H. unfold resolve_cache_dir, py_or, truthy. rewrite H. cbn [negb].
  destruct (env "HF_HUB_CACHE") as [v|]; auto.
  destruct (v =? "")%string; reflexivity.
Qed.

(** The resolution with [HF_HUB_CACHE] empty and
    [HUGGINGFACE_HUB_CACHE=/x]. *)
Lemma cache_dir_resolution_witness :
  cache_dir args_single_dest = None
  /\ resolve_cache_dir env_empty_hf_cache args_single_dest = Some "/x".
Proof.
  split; [reflexivity|].
  apply (cache_dir_resolution env_empty_hf_cache args_single_dest).
  reflexivity.
Defined.

(** ** Pattern splitting *)

Lemma split_patterns_given (s : string) :
  s <> "" -> split_patterns (Some s) = Some (split "," s).
Proof.
  intros Hs. unfold split_patterns, truthy.
  destruct (s =? "")%string eqn:E; auto.
  apply String.eqb_eq in E. contradiction.
Qed.

Lemma set_if_nonempty_split (k : string) (s : string) (kw : kwargs) :
  set_if_nonempty k (Some (split "," s)) kw
  = dict_set k (KList (split "," s)) kw.
Proof.
  unfold set_if_nonempty, split.
  destruct (split_from "," "" s) eqn:E; auto.
  now apply split_from_nonempty in E.
Qed.

(** C7 as stated fails at [--repo-id gpt2 --snapshot --allow-patterns ""]:
    the pattern string is given, and empty; [split] makes the one-piece list
    of the empty string of it, but [snapshot_download] receives no
    [allow_patterns] at all. *)
Lemma empty_patterns_counterexample :
  ~ patterns_claim hub_sample sample_os no_env args_snapshot_empty_patterns
  /\ split "," "" = [""]
  /\ hub_calls (fst (run_script hub_sample sample_os no_env true
                       args_snapshot_empty_patterns))
     = [Call_snapshot_download
          [("repo_id", KStr "gpt2"); ("revision", KStr "main")]].
Proof.
  split; [|split; reflexivity].
  intros (kw & Hcalls & Hgiven & _).
  injection Hcalls as <-.
  specialize (Hgiven "" eq_refl). discriminate Hgiven.
Qed.

(** C7 as amended: on every snapshot invocation exactly one call is made,
    to [snapshot_download]; a non-empty pattern string given on the command
    line arrives there split at the commas, in order ([a,b,c] as [a], [b],
    [c]), and an omitted or empty pattern argument is not among the keyword
    arguments. *)
Theorem snapshot_patterns_split (hub : Hub) (os : OS) (env : environ)
    (args : Args) :
  snapshot_invocation args = true ->
  exists kw,
    hub_calls (fst (run_script hub os env true args))
      = [Call_snapshot_download kw]
    /\ (forall s, allow_patterns args = Some s -> s <> "" ->
          dict_get "allow_patterns" kw = Some (KList (split "," s)))
    /\ (forall s, ignore_patterns args = Some s -> s <> "" ->
          dict_get "ignore_patterns" kw = Some (KList (split "," s)))
    /\ (allow_patterns args = None \/ allow_patterns args = Some "" ->
        dict_get "allow_patterns" kw = None)
    /\ (ignore_patterns args = None \/ ignore_patterns args = Some "" ->
        dict_get "ignore_patterns" kw = None)
    /\ split "," "a,b,c" = ["a"; "b"; "c"].
Proof.
  unfold snapshot_invocation. intros H.
  apply andb_prop in H as [H Hsnap]. apply andb_prop in H as [H Hurl].
  apply andb_prop in H as [Hcheck Hrepo].
  apply negb_true_iff in Hcheck, Hurl.
  destruct (repo_id args) as [repo|] eqn:Erepo; [|discriminate].
  exists (snapshot_kwargs repo (dest args) (revision args)
            (resolve_token env args) (resolve_cache_dir env args)
            (split_patterns (allow_patterns args))
            (split_patterns (ignore_patterns args))).
  split.
  { run_py. rewrite Hcheck, Erepo, Hrepo, Hurl, Hsnap. cbn [negb].
    repeat break_match; reflexivity. }
  unfold snapshot_kwargs.
  repeat split.
  - intros s Hs Hne. rewrite Hs, split_patterns_given by assumption.
    rewrite dict_get_set_local_dir by discriminate.
    rewrite dict_get_set_if_nonempty by discriminate.
    rewrite set_if_nonempty_split. apply dict_get_set_eq.
  - intros s Hs Hne. rewrite Hs, split_patterns_given by assumption.
    rewrite dict_get_set_local_dir by discriminate.
    rewrite set_if_nonempty_split. apply dict_get_set_eq.
  - intros [Hs|Hs]; rewrite Hs; cbn [split_patterns truthy String.eqb negb
                                      set_if_nonempty];
      rewrite dict_get_set_local_dir by discriminate;
      rewrite dict_get_set_if_nonempty by discriminate;
      rewrite !dict_get_set_if_truthy by discriminate; reflexivity.
  - intros [Hs|Hs]; rewrite Hs; cbn [split_patterns truthy String.eqb negb
                                      set_if_nonempty];
      rewrite dict_get_set_local_dir by discriminate;
      rewrite dict_get_set_if_nonempty by discriminate;
      rewrite !dict_get_set_if_truthy by discriminate; reflexivity.
Qed.

(** [--repo-id gpt2 --snapshot --allow-patterns a,b,c]. *)
Lemma snapshot_patterns_split_witness :
  exists kw,
    hub_calls (fst (run_script hub_sample sample_os no_env true
                      args_snapshot_abc))
      = [Call_snapshot_download kw]
    /\ dict_get "allow_patterns" kw = Some (KList ["a"; "b"; "c"])
    /\ dict_get "ignore_patterns" kw = None.
Proof.
  destruct (snapshot_patterns_split hub_sample sample_os no_env
              args_snapshot_abc eq_refl)
    as (kw & Hcalls & Hallow & _ & _ & Hignore & _).
  exists kw. split; [exact Hcalls|]. split.
  - apply (Hallow "a,b,c" eq_refl). discriminate.
  - apply Hignore. left. reflexivity.
Defined.

(** ** No progress events *)

(** C9: whatever the command line, the environment, the library and the
    file system, the script prints no "progress" event. *)
Theorem no_progress_events (hub : Hub) (os : OS) (env : environ)
    (import_ok : bool) (args : Args) :
  count_type "progress"
    (stdout (fst (run_script hub os env import_ok args))) = 0%nat.
Proof.
  destruct import_ok; [|reflexivity].
  run_py. repeat break_match; reflexivity.
Qed.

(** ** Single-file download, success *)

(** C3: when [download_single_file] returns, it has printed exactly two
    events: one "start" and then one "complete", and the "complete" event
    holds the file path and a file size that is not negative. *)
Theorem single_file_success_events (hub : Hub) (os : OS)
    (repo file : string) (dest : option string) (rev : string)
    (tok cd ld : option string) (w w' : World) (r : dict jvalue) :
  download_single_file hub os repo file dest rev tok cd ld w = (w', Return r) ->
  exists (p : path) (n : Z),
    printed w w'
      = [Event "start" [("repo_id", JStr repo); ("filename", JStr file);
                        ("revision", JStr rev)];
         Event "complete" [("file_path", JPath p); ("file_size", JInt n);
                           ("repo_id", JStr repo); ("filename", JStr file)]]
    /\ 0 <= n
    /\ count_type "start" (printed w w') = 1%nat
    /\ count_type "complete" (printed w w') = 1%nat.
Proof.
  intros H. run_py.
  destruct (hf_hub_download hub _) as [p|[cls msg|code]]; try discriminate.
  destruct (os_path_exists os p).
  - destruct (os_path_getsize os p) as [n|[cls msg|code]]; try discriminate.
    injection H as <- <-. exists p, (Z.of_N n).
    rewrite printed_two. repeat split. lia.
  - injection H as <- <-. exists p, 0.
    rewrite printed_two. repeat split. lia.
Qed.

(** The download of [config.json], 10 bytes in the sample tree. *)
Lemma single_file_success_events_witness :
  exists (p : path) (n : Z),
    printed fresh_world
      (fst (download_single_file hub_sample sample_os "gpt2" "config.json"
              None "main" None None None fresh_world))
      = [Event "start" [("repo_id", JStr "gpt2");
                        ("filename", JStr "config.json");
                        ("revision", JStr "main")];
         Event "complete" [("file_path", JPath p); ("file_size", JInt n);
                           ("repo_id", JStr "gpt2");
                           ("filename", JStr "config.json")]]
    /\ 0 <= n.
Proof.
  destruct (single_file_success_events hub_sample sample_os "gpt2"
              "config.json" None "main" None None None fresh_world
              (fst (download_single_file hub_sample sample_os "gpt2"
                      "config.json" None "main" None None None fresh_world))
              [("file_path", JPath ["cache"; "snap"; "config.json"]);
               ("file_size", JInt 10)] eq_refl)
    as (p & n & Hev & Hn & _).
  exists p, n. split; assumption.
Defined.

(** ** Examples of failures *)

Example snapshot_aggregation_failure :
  run_script hub_sample racy_os no_env true args_snapshot_abc
  = (mkWorld
       [Event "start" [("repo_id", JStr "gpt2"); ("revision", JStr "main");
                       ("type", JStr "snapshot")];
        Event "error" [("message", JStr "[Errno 2] No such file or directory");
                       ("code", JStr "FileNotFoundError")]]
       [Call_snapshot_download
          [("repo_id", KStr "gpt2"); ("revision", KStr "main");
           ("allow_patterns", KList ["a"; "b"; "c"])]],
     1).
Proof. reflexivity. Qed.

(** An object that is not an [Exception] passes the handler unreported. *)
Example system_exit_not_reported :
  run_script
    (mkHub (fun _ => Raise (SystemExit 3)) (fun _ => Raise (SystemExit 3))
           (fun _ _ _ => Raise (SystemExit 3)))
    sample_os no_env true args_url
  = (mkWorld [] [Call_hf_hub_url "gpt2" "config.json" "main"], 3).
Proof. reflexivity. Qed.

(** In [--url-only] mode [main] returns the URL, and [sys.exit] of a str
    gives status 1. *)
Example url_only_success :
  run_script hub_sample sample_os no_env true args_url
  = (mkWorld
       [Event "complete"
          [("url", JStr "https://huggingface.co/gpt2/resolve/main/config.json");
           ("repo_id", JStr "gpt2"); ("filename", JStr "config.json")]]
       [Call_hf_hub_url "gpt2" "config.json" "main"],
     1).
Proof. reflexivity. Qed.

(** ** The progress reporter *)

(** The percentage is the int 0, a float, or the division overflowed. *)
Lemma percentage_cases (self : ProgressReporter) :
  (total_bytes self <= 0 /\ percentage self = Return (JInt 0))
  \/ (0 < total_bytes self
      /\ exists q, py_truediv (current_bytes self) (total_bytes self)
                    = Return q
                  /\ percentage self = Return (JFloat (times_100 q)))
  \/ (0 < total_bytes self
      /\ percentage self
         = Raise (PyException "OverflowError"
                    "integer division result too large for a float")).
Proof.
  unfold percentage, py_truediv.
  destruct (Z.gtb_spec (total_bytes self) 0) as [Hpos|Hnpos];
    [|left; split; [lia | reflexivity]].
  destruct (Z.eqb_spec (total_bytes self) 0) as [He|_]; [lia|].
  destruct (SFdiv prec emax _ _) eqn:E;
    try (right; left; split; [lia | eexists; split; reflexivity]).
  right. right. split; [lia | reflexivity].
Qed.

(** The full effect of one call. *)
Lemma report_run (self : ProgressReporter) (now : Q)
    (current total : option Z) (w : World) :
  let c := current_after self current in
  let t := total_after self total in
  let self1 := mkReporter c t (last_report_time self) (report_interval self) in
  report self now current total w
  = if Qle_bool (report_interval self) (now - last_report_time self)%Q
    then match percentage self1 with
         | Return pct =>
             (mkWorld
                (stdout w ++
                 [Event "progress"
                    [("current", JInt c); ("total", JInt t);
                     ("percentage", pct)]])
                (hub_calls w),
              mkReporter c t now (report_interval self),
              Return tt)
         | Raise e => (w, self1, Raise e)
         end
    else (w, self1, Return tt).
Proof.
  unfold report.
  destruct self as [cb tb lt ri], current as [c|], total as [t|];
    cbn [current_after total_after current_bytes total_bytes
         last_report_time report_interval];
    destruct (Qle_bool ri (now - lt)); try reflexivity;
    match goal with
    | |- context [percentage ?r] => destruct (percentage r)
    end; reflexivity.
Qed.

(** Dividing by 0 raises. *)
Lemma py_truediv_zero (a : Z) :
  py_truediv a 0 = Raise (PyException "ZeroDivisionError" "division by zero").
Proof. reflexivity. Qed.

(** C10: [report] never raises [ZeroDivisionError], whatever the reporter
    and the arguments, because it divides only when [total_bytes] is
    greater than 0; when [total_bytes] is not greater than 0 the call
    returns, and the percentage of the event it prints is the int 0. *)
Theorem report_percentage_guarded (self : ProgressReporter) (now : Q)
    (current total : option Z) (w : World) :
  let '(w', self', r) := report self now current total w in
  (forall msg, r <> Raise (PyException "ZeroDivisionError" msg))
  /\ (total_after self total <= 0 ->
      r = Return tt
      /\ Forall (fun e => dict_get "percentage" (ev_data e) = Some (JInt 0))
           (printed w w')).
Proof.
  rewrite report_run. cbv zeta.
  destruct (Qle_bool _ _).
  - destruct (percentage_cases
                (mkReporter (current_after self current)
                   (total_after self total) (last_report_time self)
                   (report_interval self)))
      as [[Hle ->]|[(Hpos & q & _ & ->)|[Hpos ->]]];
      cbn [total_bytes] in *.
    + split; [discriminate|]. intros _. split; [reflexivity|].
      rewrite printed_one. constructor; [reflexivity | constructor].
    + split; [discriminate | lia].
    + split; [discriminate | lia].
  - split; [discriminate|]. intros _. split; [reflexivity|].
    unfold printed. rewrite skipn_all. constructor.
Qed.

(** A first call with a total of 0: it prints, with percentage 0. *)
Lemma report_percentage_guarded_witness :
  exists (w' : World) (self' : ProgressReporter),
    report ProgressReporter_init 1000 (Some 5) (Some 0) fresh_world
      = (w', self', Return tt)
    /\ printed fresh_world w' <> []
    /\ Forall (fun e => dict_get "percentage" (ev_data e) = Some (JInt 0))
         (printed fresh_world w').
Proof.
  assert (H := report_percentage_guarded ProgressReporter_init 1000 (Some 5)
                 (Some 0) fresh_world).
  assert (Hp : printed fresh_world
                 (fst (fst (report ProgressReporter_init 1000 (Some 5)
                              (Some 0) fresh_world))) <> [])
    by (vm_compute; discriminate).
  destruct (report ProgressReporter_init 1000 (Some 5) (Some 0) fresh_world)
    as [[w' self'] r].
  destruct H as [_ H].
  assert (Hle : total_after ProgressReporter_init (Some 0) <= 0)
    by (cbn; lia).
  destruct (H Hle) as [-> Hall].
  exists w', self'. split; [reflexivity|]. split; assumption.
Defined.

(** One call of a sequence: it printed one "progress" event, or it printed
    nothing. *)
Lemma report_log_cons (self : ProgressReporter) (c : report_call)
    (cs : list report_call) (w : World) :
  let due := Qle_bool (report_interval self)
               (at_time c - last_report_time self)%Q in
  exists (self' : ProgressReporter) (w' : World) (evs : list event)
         (r : result unit),
    report_log self (c :: cs) w
      = mkEntry (at_time c) evs r :: report_log self' cs w'
    /\ report_interval self' = report_interval self
    /\ ((due = true /\ r = Return tt /\ last_report_time self' = at_time c
         /\ exists data, evs = [Event "progress" data])
        \/ (evs = [] /\ last_report_time self' = last_report_time self
            /\ (due = true -> r <> Return tt))).
Proof.
  cbn [report_log]. rewrite report_run. cbv zeta.
  destruct (Qle_bool _ _).
  - destruct (percentage _) as [pct|e].
    + eexists _, _, _, _. rewrite printed_one. split; [reflexivity|].
      split; [reflexivity|]. left. repeat split. eexists. reflexivity.
    + eexists _, _, _, _. split; [reflexivity|].
      split; [reflexivity|]. right.
      split; [unfold printed; apply skipn_all|].
      split; [reflexivity | discriminate].
  - eexists _, _, _, _. split; [reflexivity|].
    split; [reflexivity|]. right.
    split; [unfold printed; apply skipn_all|].
    split; [reflexivity | discriminate].
Qed.

(** After calls that printed nothing, the next call prints only when the
    interval has passed since [last_report_time], and then it does unless
    it raises. *)
Lemma report_log_after_silence (mid : list log_entry) :
  forall (cs : list report_call) (self : ProgressReporter) (w : World)
         (e2 : log_entry) (rest : list log_entry),
  report_log self cs w = (mid ++ e2 :: rest)%list ->
  Forall (fun x => le_events x = []) mid ->
  (le_events e2 <> [] ->
   (report_interval self <= le_time e2 - last_report_time self)%Q)
  /\ ((report_interval self <= le_time e2 - last_report_time self)%Q ->
      le_result e2 = Return tt -> le_events e2 <> [])
  /\ (le_events e2 = []
      \/ exists data, le_events e2 = [Event "progress" data]).
Proof.
  induction mid as [|e mid IH]; intros cs self w e2 rest Hlog Hmid.
  - destruct cs as [|c cs]; [discriminate|].
    destruct (report_log_cons self c cs w)
      as (self' & w' & evs & r & Heq & _ & Hcase).
    rewrite Heq in Hlog. injection Hlog as <- _.
    cbn [le_time le_events le_result]. rewrite <- Qle_bool_iff.
    destruct Hcase as [(Hdue & Hr & _ & data & ->)|(-> & _ & Hno)].
    + split; [auto|]. split; [discriminate|]. right. eexists. reflexivity.
    + split; [congruence|]. split; [|left; reflexivity].
      intros Hdue Hr. exfalso. exact (Hno Hdue Hr).
  - destruct cs as [|c cs]; [discriminate|].
    destruct (report_log_cons self c cs w)
      as (self' & w' & evs & r & Heq & Hint & Hcase).
    rewrite Heq in Hlog. injection Hlog as <- Hlog.
    inversion Hmid as [|x l Hsilent Hmid']; subst. cbn in Hsilent.
    destruct Hcase as [(_ & _ & _ & data & Hev)|(_ & Hlast & _)];
      [congruence|].
    rewrite <- Hint, <- Hlast. eapply IH; eassumption.
Qed.

(** C8: take any sequence of [report] calls on a reporter made by
    [__init__].  If a call at time [t1] printed an event and the calls after
    it up to a call at time [t2] printed nothing, then the call at [t2]
    prints only if [t2 - t1 >= 0.5], and it prints nothing when less time
    has passed; what it prints is one "progress" event.  When the interval
    has passed it does print, provided the call returns (the division may
    overflow). *)
Theorem report_rate_limited (cs : list report_call) (w : World)
    (before mid rest : list log_entry) (e1 e2 : log_entry) :
  report_log ProgressReporter_init cs w
    = (before ++ e1 :: mid ++ e2 :: rest)%list ->
  le_events e1 <> [] ->
  Forall (fun x => le_events x = []) mid ->
  (le_events e2 <> [] -> (1 # 2 <= le_time e2 - le_time e1)%Q)
  /\ ((le_time e2 - le_time e1 < 1 # 2)%Q -> le_events e2 = [])
  /\ ((1 # 2 <= le_time e2 - le_time e1)%Q -> le_result e2 = Return tt ->
      le_events e2 <> [])
  /\ (le_events e2 = []
      \/ exists data, le_events e2 = [Event "progress" data]).
Proof.
  assert (Hgen : forall self,
    report_interval self = (1 # 2)%Q ->
    report_log self cs w = (before ++ e1 :: mid ++ e2 :: rest)%list ->
    le_events e1 <> [] ->
    Forall (fun x => le_events x = []) mid ->
    (le_events e2 <> [] -> (1 # 2 <= le_time e2 - le_time e1)%Q)
    /\ ((1 # 2 <= le_time e2 - le_time e1)%Q -> le_result e2 = Return tt ->
        le_events e2 <> [])
    /\ (le_events e2 = []
        \/ exists data, le_events e2 = [Event "progress" data])).
  { revert cs w.
    induction before as [|e before IH]; intros cs w self Hint Hlog Hev1 Hmid.
    - destruct cs as [|c cs]; [discriminate|].
      destruct (report_log_cons self c cs w)
        as (self' & w' & evs & r & Heq & Hint' & Hcase).
      rewrite Heq in Hlog. injection Hlog as <- Hlog.
      cbn [le_events le_time] in *.
      destruct Hcase as [(_ & _ & Hlast & _)|(Hnil & _)];
        [|contradiction].
      rewrite <- Hlast, <- Hint, <- Hint'.
      eapply report_log_after_silence; eassumption.
    - destruct cs as [|c cs]; [discriminate|].
      destruct (report_log_cons self c cs w)
        as (self' & w' & evs & r & Heq & Hint' & _).
      rewrite Heq in Hlog. injection Hlog as _ Hlog.
      apply (IH cs w' self'); auto. congruence. }
  intros Hlog Hev1 Hmid.
  destruct (Hgen ProgressReporter_init eq_refl Hlog Hev1 Hmid)
    as (Honly & Hdoes & Hshape).
  split; [exact Honly|]. split; [|split; [exact Hdoes | exact Hshape]].
  intros Hlt. destruct (le_events e2) as [|e l] eqn:E; [reflexivity|].
  exfalso. apply (Qlt_not_le _ _ Hlt). apply Honly. discriminate.
Qed.

(** The call 0.2 s after the first event is silent, the one 0.7 s after it
    prints; the last call is due and raises [OverflowError]. *)
Lemma report_rate_limited_witness :
  report_log ProgressReporter_init sample_calls fresh_world
    = [sample_first; mkEntry (5001 # 5) [] (Return tt); sample_third;
       mkEntry (2003 # 2) []
         (Raise (PyException "OverflowError"
                   "integer division result too large for a float"))]
  /\ le_events sample_first <> []
  /\ (le_events sample_third <> [] -> (1 # 2 <= (10007 # 10) - 1000)%Q)
  /\ ((1 # 2 <= (10007 # 10) - 1000)%Q ->
      le_result sample_third = Return tt -> le_events sample_third <> []).
Proof.
  split; [vm_compute; reflexivity|].
  split; [vm_compute; discriminate|].
  assert (H := report_rate_limited sample_calls fresh_world
                 [] [mkEntry (5001 # 5) [] (Return tt)]
                 [mkEntry (2003 # 2) []
                    (Raise (PyException "OverflowError"
                       "integer division result too large for a float"))]
                 sample_first sample_third).
  destruct H as (Honly & _ & Hdoes & _).
  - vm_compute. reflexivity.
  - vm_compute. discriminate.
  - constructor; [reflexivity | constructor].
  - split; assumption.
Defined.

(** ** The aggregates of a snapshot *)

(** Induction on a tree, with the hypothesis for the target of a link and
    for every entry of a directory. *)
Lemma node_ind (P : node -> Prop)
    (HFile : forall s, P (File s))
    (HBroken : P (Link None))
    (HLink : forall t, P t -> P (Link (Some t)))
    (HDir : forall es, Forall (fun e => P (snd e)) es -> P (Dir es)) :
  forall n, P n.
Proof.
  fix IH 1. intros [s|[t|]|es].
  - apply HFile.
  - apply HLink, IH.
  - apply HBroken.
  - apply HDir. induction es as [|e es IHes]; constructor.
    + apply IH.
    + exact IHes.
Qed.

Lemma sum_sizes_app (l1 l2 : list N) :
  sum_sizes (l1 ++ l2) = sum_sizes l1 + sum_sizes l2.
Proof. induction l1 as [|x l1 IH]; simpl; lia. Qed.

Lemma add_files_nil (acc : Z * Z) : add_files acc [] = acc.
Proof.
  destruct acc as [a b]. unfold add_files. simpl. f_equal; lia.
Qed.

Lemma add_files_app (acc : Z * Z) (l1 l2 : list N) :
  add_files (add_files acc l1) l2 = add_files acc (l1 ++ l2).
Proof.
  unfold add_files. cbn [fst snd].
  rewrite sum_sizes_app, length_app, Nat2Z.inj_add. f_equal; lia.
Qed.

Lemma add_files_cons (acc : Z * Z) (s : N) (l : list N) :
  add_files (fst acc + Z.of_N s, snd acc + 1) l = add_files acc (s :: l).
Proof.
  unfold add_files, sum_sizes. cbn [fst snd fold_right List.length].
  rewrite Nat2Z.inj_succ. f_equal; lia.
Qed.

Lemma direct_files_cons (name : string) (c : node) (es : list (string * node)) :
  direct_files ((name, c) :: es)
  = ((match c with File s => [s] | _ => [] end) ++ direct_files es)%list.
Proof. reflexivity. Qed.

Lemma deep_files_cons (name : string) (c : node) (es : list (string * node)) :
  deep_files ((name, c) :: es)
  = ((match c with Dir _ => regular_files c | _ => [] end)
     ++ deep_files es)%list.
Proof. reflexivity. Qed.

(** Counting directory by directory gives the files of the tree. *)
Lemma add_files_split (acc : Z * Z) (es : list (string * node)) :
  add_files acc (direct_files es ++ deep_files es)
  = add_files acc (regular_files (Dir es)).
Proof.
  unfold add_files. cbn [regular_files].
  rewrite sum_sizes_app, length_app.
  assert (H : sum_sizes (direct_files es) + sum_sizes (deep_files es)
              = sum_sizes (flat_map (fun e => regular_files (snd e)) es)
              /\ (List.length (direct_files es) + List.length (deep_files es))%nat
                 = List.length (flat_map (fun e => regular_files (snd e)) es)).
  { induction es as [|[name c] es [IHs IHl]]; [split; reflexivity|].
    rewrite direct_files_cons, deep_files_cons.
    cbn [flat_map snd]. rewrite !sum_sizes_app, !length_app.
    rewrite <- IHs, <- IHl.
    destruct c as [s|t|sub]; unfold sum_sizes;
      cbn [regular_files fold_right List.length]; split; lia. }
  destruct H as [<- <-]. reflexivity.
Qed.

(** *** Facts on [follow] and [lookup_rel] *)

Lemma follow_well_formed (n m : node) :
  well_formed n = true -> follow n = Some m -> well_formed m = true.
Proof.
  revert m. induction n as [s| |t IH|es _] using node_ind; intros m Hwf H.
  - injection H as <-. reflexivity.
  - discriminate.
  - apply IH; assumption.
  - injection H as <-. exact Hwf.
Qed.

Lemma dict_get_In {V} (k : string) (v : V) (d : dict V) :
  dict_get k d = Some v -> In (k, v) d.
Proof.
  induction d as [|[k' v'] d IH]; simpl; [discriminate|].
  destruct (k' =? k)%string eqn:E.
  - apply String.eqb_eq in E. intros [= <-]. left. congruence.
  - intros H. right. auto.
Qed.

Lemma unique_names_get {V} (k : string) (v : V) (d : dict V) :
  unique_names d = true -> In (k, v) d -> dict_get k d = Some v.
Proof.
  induction d as [|[k' v'] d IH]; simpl; [contradiction|].
  intros Hu [Heq|Hin].
  - injection Heq as -> ->. now rewrite String.eqb_refl.
  - apply andb_prop in Hu as [Hfirst Hu].
    destruct (k' =? k)%string eqn:E; [|auto].
    apply String.eqb_eq in E. subst k'.
    apply negb_true_iff in Hfirst.
    assert (Hex : existsb (String.eqb k) (map fst d) = true).
    { apply existsb_exists. exists k. split.
      - apply (in_map fst) in Hin. exact Hin.
      - apply String.eqb_refl. }
    congruence.
Qed.

Lemma well_formed_entry (es : list (string * node)) (name : string) (c : node) :
  well_formed (Dir es) = true -> In (name, c) es -> well_formed c = true.
Proof.
  cbn [well_formed]. intros H Hin. apply andb_prop in H as [_ H].
  rewrite forallb_forall in H. apply (H (name, c) Hin).
Qed.

Lemma lookup_rel_well_formed (q : path) :
  forall n m, well_formed n = true -> lookup_rel n q = Some m ->
              well_formed m = true.
Proof.
  induction q as [|name q IH]; intros n m Hwf H; cbn [lookup_rel] in H.
  - injection H as <-. exact Hwf.
  - destruct (follow n) as [[s|t|es]|] eqn:Ef; try discriminate.
    destruct (dict_get name es) as [c|] eqn:Eg; [|discriminate].
    apply (IH c m); [|exact H].
    apply (well_formed_entry es name c).
    + apply (follow_well_formed n); assumption.
    + apply dict_get_In. exact Eg.
Qed.

Lemma lookup_rel_app (p q : path) :
  forall n, lookup_rel n (p ++ q)%list
            = match lookup_rel n p with
              | Some m => lookup_rel m q
              | None => None
              end.
Proof.
  induction p as [|name p IH]; intros n; cbn [lookup_rel app]; [reflexivity|].
  destruct (follow n) as [[s|t|es]|]; try reflexivity.
  destruct (dict_get name es); [apply IH | reflexivity].
Qed.

(** Below a directory that [stat] finds at [p], [lstat] goes on from it. *)
Lemma lstat_below (root : node) (p : path) (es : list (string * node))
    (name : string) (q : path) :
  stat root p = Some (Dir es) ->
  lstat root (p ++ name :: q)%list = lookup_rel (Dir es) (name :: q).
Proof.
  unfold stat, lstat. intros H. rewrite lookup_rel_app.
  destruct (lookup_rel root p) as [m|]; [|discriminate].
  cbn [lookup_rel]. rewrite H. reflexivity.
Qed.

(** *** The loops on a tree *)

Lemma count_walk_app (os : OS) (l1 l2 : list (path * list string * list string))
    (acc : Z * Z) :
  count_walk os (l1 ++ l2) acc
  = match count_walk os l1 acc with
    | Return acc' => count_walk os l2 acc'
    | Raise e => Raise e
    end.
Proof.
  revert acc. induction l1 as [|[[r ds] fs] l1 IH]; intros acc; [reflexivity|].
  cbn [app count_walk].
  destruct (count_in_dir os r fs acc); [apply IH | reflexivity].
Qed.

Section TreeCount.

Variable root : node.
Variable dir_size : N.

(** The inner loop adds the files of the directory that are not links. *)
Lemma count_in_dir_tree (pre : path) (part : list (string * node)) :
  (forall name c, In (name, c) part ->
                  lstat root (os_path_join pre name) = Some c) ->
  forall acc,
  count_in_dir (tree_os root dir_size) pre
    (map fst (filter (fun e => negb (is_dir (snd e))) part)) acc
  = Return (add_files acc (direct_files part)).
Proof.
  induction part as [|[name c] part IH]; intros Hl acc.
  - cbn. now rewrite add_files_nil.
  - assert (Hc := Hl name c (or_introl eq_refl)).
    assert (IH' := IH (fun n c' H => Hl n c' (or_intror H))).
    rewrite direct_files_cons. cbn [filter snd].
    destruct c as [s|t|sub].
    + cbn [is_dir follow negb map fst count_in_dir].
      cbn [tree_os os_path_exists os_path_islink os_path_getsize].
      unfold tree_exists, tree_islink, tree_getsize, stat.
      rewrite Hc. cbn [follow andb negb].
      rewrite IH'. cbn [app]. now rewrite add_files_cons.
    + cbn [app]. destruct (is_dir (Link t)); cbn [negb map fst]; [apply IH'|].
      cbn [count_in_dir].
      cbn [tree_os os_path_exists os_path_islink os_path_getsize].
      unfold tree_islink. rewrite Hc. cbn [negb]. rewrite andb_false_r.
      apply IH'.
    + cbn [is_dir follow negb app]. apply IH'.
Qed.

(** The walk of a directory adds the files under it. *)
Lemma count_walk_tree (d : node) :
  forall (pre : path) (acc : Z * Z) (es : list (string * node)),
  d = Dir es ->
  well_formed d = true ->
  (forall name q, lstat root (pre ++ name :: q)%list
                  = lookup_rel d (name :: q)) ->
  count_walk (tree_os root dir_size) (walk pre d) acc = Return (add_files acc (regular_files d)).
Proof.
  induction d as [s| |t _|es0 IH] using node_ind;
    intros pre acc es Hd Hwf Hl; try discriminate.
  injection Hd as ->.
  assert (Hget : forall name c, In (name, c) es -> dict_get name es = Some c).
  { intros name c Hin. apply unique_names_get; [|exact Hin].
    cbn [well_formed] in Hwf. now apply andb_prop in Hwf as [Hu _]. }
  cbn [walk count_walk].
  rewrite count_in_dir_tree.
  2:{ intros name c Hin. unfold os_path_join. rewrite Hl.
      cbn [lookup_rel follow]. now rewrite (Hget name c Hin). }
  rewrite <- add_files_split, <- add_files_app.
  generalize (add_files acc (direct_files es)). clear acc.
  assert (Hsub : forall part, incl part es ->
            Forall (fun e =>
              forall pre acc es', snd e = Dir es' ->
                well_formed (snd e) = true ->
                (forall name q, lstat root (pre ++ name :: q)%list
                                = lookup_rel (snd e) (name :: q)) ->
                count_walk (tree_os root dir_size) (walk pre (snd e)) acc
                = Return (add_files acc (regular_files (snd e)))) part ->
            forall acc,
            count_walk (tree_os root dir_size)
              (flat_map (fun e => match snd e with
                                  | Dir _ => walk (os_path_join pre (fst e)) (snd e)
                                  | _ => []
                                  end) part) acc
            = Return (add_files acc (deep_files part))).
  { induction part as [|[name c] part IHp]; intros Hincl HP acc.
    - cbn. now rewrite add_files_nil.
    - inversion HP as [|x l Hc HP']; subst.
      assert (Hin : In (name, c) es) by (apply Hincl; now left).
      assert (Hincl' : incl part es)
        by (intros x Hx; apply Hincl; now right).
      rewrite deep_files_cons. cbn [flat_map fst snd] in *.
      rewrite count_walk_app, <- add_files_app.
      destruct c as [s|t|sub]; cbn [count_walk];
        rewrite ?add_files_nil; try (apply IHp; assumption).
      rewrite (Hc (os_path_join pre name) acc sub eq_refl).
      + apply IHp; assumption.
      + apply (well_formed_entry es name); assumption.
      + intros n' q. unfold os_path_join. rewrite <- app_assoc.
        cbn [app]. rewrite Hl. cbn [lookup_rel follow].
        now rewrite (Hget name (Dir sub) Hin). }
  apply Hsub; [apply incl_refl | exact IH].
Qed.

(** Lines 201-210 on a tree: the aggregates are those of the files under
    the snapshot directory. *)
Lemma count_files_tree (p : path) :
  well_formed root = true ->
  count_files (tree_os root dir_size) p
  = Return (sum_sizes (files_under root p),
            Z.of_nat (List.length (files_under root p))).
Proof.
  intros Hwf. unfold count_files, files_under.
  cbn [tree_os os_path_exists os_walk]. unfold tree_exists, tree_walk.
  destruct (stat root p) as [d|] eqn:Es; [|reflexivity].
  destruct d as [s|t|es]; try reflexivity.
  rewrite (count_walk_tree (Dir es) p (0, 0) es eq_refl).
  - reflexivity.
  - unfold stat in Es.
    destruct (lstat root p) as [m|] eqn:El; [|discriminate].
    apply (follow_well_formed m); [|exact Es].
    apply (lookup_rel_well_formed p root); assumption.
  - intros name q. apply lstat_below. exact Es.
Qed.

End TreeCount.

(** C2: on a file system that is a tree with unique names, when
    [download_snapshot] returns, the "complete" event it printed holds as
    [file_count] the number of files under the snapshot directory that are
    not symbolic links, and as [total_size] the sum of their sizes; the
    returned dict holds the same values. *)
Theorem snapshot_aggregates (root : node) (dir_size : N) (hub : Hub)
    (repo : string) (dest : option string) (rev : string)
    (tok cd : option string) (allow ignore : option (list string))
    (w w' : World) (r : dict jvalue) :
  well_formed root = true ->
  download_snapshot hub (tree_os root dir_size) repo dest rev tok cd
    allow ignore w = (w', Return r) ->
  exists p : path,
    snapshot_download hub (snapshot_kwargs repo dest rev tok cd allow ignore)
      = Return p
    /\ printed w w'
       = [Event "start" [("repo_id", JStr repo); ("revision", JStr rev);
                         ("type", JStr "snapshot")];
          Event "complete"
            [("snapshot_path", JPath p);
             ("file_count",
              JInt (Z.of_nat (List.length (files_under root p))));
             ("total_size", JInt (sum_sizes (files_under root p)));
             ("repo_id", JStr repo)]]
    /\ r = [("snapshot_path", JPath p);
            ("file_count", JInt (Z.of_nat (List.length (files_under root p))));
            ("total_size", JInt (sum_sizes (files_under root p)))].
Proof.
  intros Hwf H. run_py.
  destruct (snapshot_download hub _) as [p|[cls msg|code]]; try discriminate.
  rewrite (count_files_tree root dir_size p Hwf) in H. cbn [fst snd] in H.
  injection H as <- <-. exists p.
  split; [reflexivity|]. split; [|reflexivity].
  apply printed_two.
Qed.

(** The snapshot of the sample tree: 3 files, 22 bytes. *)
Lemma snapshot_aggregates_witness :
  files_under sample_tree ["cache"; "snap"] = [10%N; 5%N; 7%N]
  /\ exists p : path,
       printed fresh_world
         (fst (download_snapshot hub_sample sample_os "gpt2" None "main"
                 None None None None fresh_world))
       = [Event "start" [("repo_id", JStr "gpt2"); ("revision", JStr "main");
                         ("type", JStr "snapshot")];
          Event "complete"
            [("snapshot_path", JPath p);
             ("file_count",
              JInt (Z.of_nat (List.length (files_under sample_tree p))));
             ("total_size", JInt (sum_sizes (files_under sample_tree p)));
             ("repo_id", JStr "gpt2")]].
Proof.
  split; [reflexivity|].
  destruct (snapshot_aggregates sample_tree 4096 hub_sample "gpt2" None "main"
              None None None None fresh_world
              (fst (download_snapshot hub_sample sample_os "gpt2" None "main"
                      None None None None fresh_world))
              [("snapshot_path", JPath ["cache"; "snap"]);
               ("file_count", JInt 3); ("total_size", JInt 22)]
              eq_refl eq_refl)
    as (p & _ & Hev & _).
  exists p. exact Hev.
Defined.

(** ** What [main] does in each mode *)

Lemma truthy_unwrap (o : option string) :
  truthy o = true -> o = Some (unwrap o).
Proof. destruct o; [reflexivity | discriminate]. Qed.

Lemma main_usage (hub : Hub) (os : OS) (env : environ) (avail : bool)
    (args : Args) (w : World) :
  usage_error args = true ->
  main hub os env avail args w = (w, Raise (SystemExit 2)).
Proof.
  unfold usage_error, main. intros H.
  apply andb_prop in H as [Hc H]. apply negb_true_iff in Hc. rewrite Hc.
  destruct (repo_id args) as [repo|]; [|reflexivity].
  destruct (truthy (Some repo)); cbn [negb orb] in *; [|reflexivity].
  destruct (url_only args).
  - destruct (filename args) as [file|]; [|reflexivity].
    rewrite H. reflexivity.
  - apply andb_prop in H as [Hs Hf]. apply negb_true_iff in Hs. rewrite Hs.
    destruct (filename args) as [file|]; [|reflexivity].
    rewrite Hf. reflexivity.
Qed.

Lemma main_url (hub : Hub) (os : OS) (env : environ) (avail : bool)
    (args : Args) (w : World) :
  url_invocation args = true ->
  main hub os env avail args w
  = (url <- get_file_url hub (unwrap (repo_id args)) (unwrap (filename args))
              (revision args) ;;
     ret (RStr url)) w.
Proof.
  unfold url_invocation, main. intros H.
  apply andb_prop in H as [H Hf]. apply andb_prop in H as [H Hu].
  apply andb_prop in H as [Hc Hr]. apply negb_true_iff in Hc.
  rewrite Hc, Hu.
  destruct (repo_id args) as [repo|]; [|discriminate].
  destruct (filename args) as [file|]; [|discriminate].
  cbn [unwrap]. rewrite Hr, Hf. reflexivity.
Qed.

Lemma main_snapshot (hub : Hub) (os : OS) (env : environ) (avail : bool)
    (args : Args) (w : World) :
  snapshot_invocation args = true ->
  main hub os env avail args w
  = (download_snapshot hub os (unwrap (repo_id args)) (dest args)
       (revision args) (resolve_token env args) (resolve_cache_dir env args)
       (split_patterns (allow_patterns args))
       (split_patterns (ignore_patterns args)) ;;
     ret (RInt 0)) w.
Proof.
  unfold snapshot_invocation, main. intros H.
  apply andb_prop in H as [H Hs]. apply andb_prop in H as [H Hu].
  apply andb_prop in H as [Hc Hr]. apply negb_true_iff in Hc, Hu.
  rewrite Hc, Hu, Hs.
  destruct (repo_id args) as [repo|]; [|discriminate].
  cbn [unwrap]. rewrite Hr. reflexivity.
Qed.

Lemma main_single (hub : Hub) (os : OS) (env : environ) (avail : bool)
    (args : Args) (w : World) :
  single_invocation args = true ->
  main hub os env avail args w
  = (download_single_file hub os (unwrap (repo_id args))
       (unwrap (filename args)) (dest args) (revision args)
       (resolve_token env args) (resolve_cache_dir env args) None ;;
     ret (RInt 0)) w.
Proof.
  unfold single_invocation, main. intros H.
  apply andb_prop in H as [H Hf]. apply andb_prop in H as [H Hs].
  apply andb_prop in H as [H Hu]. apply andb_prop in H as [Hc Hr].
  apply negb_true_iff in Hc, Hu, Hs.
  rewrite Hc, Hu, Hs.
  destruct (repo_id args) as [repo|]; [|discriminate].
  destruct (filename args) as [file|]; [|discriminate].
  cbn [unwrap]. rewrite Hr, Hf. reflexivity.
Qed.

(** Every command line is of exactly one of the five kinds. *)
Lemma mode_cases (args : Args) :
  check args = true \/ usage_error args = true \/ url_invocation args = true
  \/ snapshot_invocation args = true \/ single_invocation args = true.
Proof.
  unfold usage_error, url_invocation, snapshot_invocation, single_invocation.
  destruct (check args), (truthy (repo_id args)), (url_only args),
    (snapshot args), (truthy (filename args)); cbn; auto.
Qed.

(** ** Failures of the operations *)

(** The end of a branch that printed the "error" event. *)
Ltac reported := repeat split; cbn; auto; discriminate.

(** C1: in each of the three operation modes, if the library function
    called with the arguments of that mode raises an exception, or the
    [os.path.getsize] call or the aggregation loop after it does, then the
    script prints exactly one "error" event, which carries the message and
    the class name, prints no "complete" event, [main] ends by raising the
    same exception, and the exit status is not 0. *)
Theorem failure_reported_once (hub : Hub) (os : OS) (env : environ)
    (args : Args) (cls msg : string) :
  operation_fails hub os env args cls msg ->
  let w := fst (run_script hub os env true args) in
  count_type "error" (stdout w) = 1%nat
  /\ In (Event "error" [("message", JStr msg); ("code", JStr cls)]) (stdout w)
  /\ count_type "complete" (stdout w) = 0%nat
  /\ main hub os env true args fresh_world = (w, Raise (PyException cls msg))
  /\ snd (run_script hub os env true args) <> 0.
Proof.
  intros [Hm Hr|Hm Hr|p Hm Hr He Hg|Hm Hr|p Hm Hr Hc]; unfold run_script.
  - rewrite (main_url _ _ _ _ _ _ Hm). run_py. rewrite Hr. reported.
  - rewrite (main_single _ _ _ _ _ _ Hm). run_py. rewrite Hr. reported.
  - rewrite (main_single _ _ _ _ _ _ Hm). run_py. rewrite Hr, He, Hg.
    reported.
  - rewrite (main_snapshot _ _ _ _ _ _ Hm). run_py. rewrite Hr. reported.
  - rewrite (main_snapshot _ _ _ _ _ _ Hm). run_py. rewrite Hr, Hc. reported.
Qed.

(** The three modes: a single-file download and a URL resolution with the
    library offline, and a snapshot whose file vanishes before
    [os.path.getsize]. *)
Lemma failure_reported_once_witness :
  (let w := fst (run_script hub_offline sample_os no_env true
                   args_single_dest) in
   count_type "error" (stdout w) = 1%nat
   /\ In (Event "error" [("message", JStr "offline");
                         ("code", JStr "ConnectionError")]) (stdout w)
   /\ count_type "complete" (stdout w) = 0%nat
   /\ main hub_offline sample_os no_env true args_single_dest fresh_world
      = (w, Raise (PyException "ConnectionError" "offline"))
   /\ snd (run_script hub_offline sample_os no_env true args_single_dest)
      <> 0)
  /\ (let w := fst (run_script hub_offline sample_os no_env true args_url) in
      count_type "error" (stdout w) = 1%nat
      /\ In (Event "error" [("message", JStr "offline");
                            ("code", JStr "ConnectionError")]) (stdout w)
      /\ count_type "complete" (stdout w) = 0%nat
      /\ main hub_offline sample_os no_env true args_url fresh_world
         = (w, Raise (PyException "ConnectionError" "offline"))
      /\ snd (run_script hub_offline sample_os no_env true args_url) <> 0)
  /\ (let w := fst (run_script hub_sample racy_os no_env true
                      args_snapshot_abc) in
      count_type "error" (stdout w) = 1%nat
      /\ In (Event "error"
               [("message", JStr "[Errno 2] No such file or directory");
                ("code", JStr "FileNotFoundError")]) (stdout w)
      /\ count_type "complete" (stdout w) = 0%nat
      /\ main hub_sample racy_os no_env true args_snapshot_abc fresh_world
         = (w, Raise (PyException "FileNotFoundError"
                        "[Errno 2] No such file or directory"))
      /\ snd (run_script hub_sample racy_os no_env true args_snapshot_abc)
         <> 0).
Proof.
  split; [|split].
  - apply (failure_reported_once hub_offline sample_os no_env
             args_single_dest "ConnectionError" "offline").
    apply single_download_fails; reflexivity.
  - apply (failure_reported_once hub_offline sample_os no_env args_url
             "ConnectionError" "offline").
    apply url_fails; reflexivity.
  - apply (failure_reported_once hub_sample racy_os no_env args_snapshot_abc
             "FileNotFoundError" "[Errno 2] No such file or directory").
    apply (snapshot_aggregation_fails _ _ _ _ _ _ ["cache"; "snap"]);
      reflexivity.
Defined.

(** * Further properties of the script *)

(** ** Usage errors *)

Lemma run_script_usage (hub : Hub) (os : OS) (env : environ) (args : Args) :
  usage_error args = true ->
  run_script hub os env true args = (fresh_world, 2).
Proof.
  intros H. unfold run_script. rewrite (main_usage _ _ _ _ _ _ H).
  reflexivity.
Qed.

(** X1: a usage error (no [--repo-id]; [--url-only] without [--filename];
    neither [--snapshot] nor [--filename]; an empty string counts as
    missing) ends the script with status 2 before anything is printed and
    before any call to the library. *)
Theorem usage_error_exits_2 (hub : Hub) (os : OS) (env : environ)
    (args : Args) :
  usage_error args = true ->
  run_script hub os env true args = (fresh_world, 2).
Proof. exact (run_script_usage hub os env args). Qed.

Lemma usage_error_exits_2_witness :
  usage_error args_no_repo = true
  /\ run_script hub_sample sample_os no_env true args_no_repo
     = (fresh_world, 2).
Proof.
  split; [reflexivity|].
  apply (usage_error_exits_2 hub_sample sample_os no_env args_no_repo).
  reflexivity.
Defined.




(** ** The availability check among the other flags *)



(** ** URL resolution *)

(** X4: in [--url-only] mode the outcome depends on the command line only
    through [--repo-id], [--filename] and [--revision]: [--snapshot], the
    patterns, [--dest], [--token], [--cache-dir], the environment and the
    file system have no effect. *)
Theorem url_only_uses_three_arguments (hub : Hub) (os os' : OS)
    (env env' : environ) (args args' : Args) :
  url_invocation args = true ->
  url_invocation args' = true ->
  repo_id args = repo_id args' ->
  filename args = filename args' ->
  revision args = revision args' ->
  run_script hub os env true args = run_script hub os' env' true args'.
Proof.
  intros H H' Hr Hf Hv. unfold run_script.
  rewrite (main_url _ _ _ _ _ _ H), (main_url _ _ _ _ _ _ H').
  rewrite Hr, Hf, Hv. reflexivity.
Qed.

Lemma url_only_uses_three_arguments_witness :
  run_script hub_sample sample_os no_env true args_url
  = run_script hub_sample racy_os env_token true
      (mkArgs (Some "gpt2") (Some "config.json") (Some "./models") "main"
         (Some "cli") (Some "/c") true (Some "a,b") None true false).
Proof.
  apply (url_only_uses_three_arguments hub_sample sample_os racy_os
           no_env env_token args_url
           (mkArgs (Some "gpt2") (Some "config.json") (Some "./models")
              "main" (Some "cli") (Some "/c") true (Some "a,b") None
              true false)); reflexivity.
Defined.

(** X5: when [hf_hub_url] returns, [--url-only] prints one "complete" event
    with the URL, and the exit status is 1, not 0: [main] returns the URL
    and line 347 hands it to [sys.exit], which takes a str for an error
    message. *)
Theorem url_only_success_exits_1 (hub : Hub) (os : OS) (env : environ)
    (args : Args) (url : string) :
  url_invocation args = true ->
  hf_hub_url hub (unwrap (repo_id args)) (unwrap (filename args))
    (revision args) = Return url ->
  run_script hub os env true args
  = (mkWorld
       [Event "complete"
          [("url", JStr url); ("repo_id", JStr (unwrap (repo_id args)));
           ("filename", JStr (unwrap (filename args)))]]
       [Call_hf_hub_url (unwrap (repo_id args)) (unwrap (filename args))
          (revision args)],
     1).
Proof.
  intros H Hurl. unfold run_script. rewrite (main_url _ _ _ _ _ _ H).
  run_py. rewrite Hurl. reflexivity.
Qed.

Lemma url_only_success_exits_1_witness :
  run_script hub_sample sample_os no_env true args_url
  = (mkWorld
       [Event "complete"
          [("url", JStr "https://huggingface.co/gpt2/resolve/main/config.json");
           ("repo_id", JStr "gpt2"); ("filename", JStr "config.json")]]
       [Call_hf_hub_url "gpt2" "config.json" "main"],
     1).
Proof.
  apply (url_only_success_exits_1 hub_sample sample_os no_env args_url
           "https://huggingface.co/gpt2/resolve/main/config.json");
    reflexivity.
Defined.

(** ** The calls and the event stream *)

Lemma run_script_calls (hub : Hub) (os : OS) (env : environ)
    (import_ok : bool) (args : Args) :
  hub_calls (fst (run_script hub os env import_ok args))
  = if negb import_ok || check args || usage_error args then []
    else if url_only args then
      [Call_hf_hub_url (unwrap (repo_id args)) (unwrap (filename args))
         (revision args)]
    else if snapshot args then
      [Call_snapshot_download
         (snapshot_kwargs (unwrap (repo_id args)) (dest args) (revision args)
            (resolve_token env args) (resolve_cache_dir env args)
            (split_patterns (allow_patterns args))
            (split_patterns (ignore_patterns args)))]
    else
      [Call_hf_hub_download
         (single_file_kwargs (unwrap (repo_id args)) (unwrap (filename args))
            (revision args) (resolve_token env args)
            (resolve_cache_dir env args) None)].
Proof.
  destruct import_ok; [|reflexivity]. cbn [negb orb].
  destruct (mode_cases args) as [Hc|[Hc|[Hc|[Hc|Hc]]]].
  - run_py. rewrite Hc. reflexivity.
  - rewrite (run_script_usage _ _ _ _ Hc), Hc, orb_true_r. reflexivity.
  - assert (Hm := Hc). unfold run_script.
    rewrite (main_url _ _ _ _ _ _ Hc).
    unfold url_invocation, usage_error in *.
    destruct (check args), (truthy (repo_id args)), (url_only args),
      (truthy (filename args)); try discriminate. cbn [negb orb andb].
    run_py. repeat break_match; reflexivity.
  - assert (Hm := Hc). unfold run_script.
    rewrite (main_snapshot _ _ _ _ _ _ Hc).
    unfold snapshot_invocation, usage_error in *.
    destruct (check args), (truthy (repo_id args)), (url_only args),
      (snapshot args); try discriminate. cbn [negb orb andb].
    run_py. repeat break_match; reflexivity.
  - assert (Hm := Hc). unfold run_script.
    rewrite (main_single _ _ _ _ _ _ Hc).
    unfold single_invocation, usage_error in *.
    destruct (check args), (truthy (repo_id args)), (url_only args),
      (snapshot args), (truthy (filename args)); try discriminate.
    cbn [negb orb andb].
    run_py. repeat break_match; reflexivity.
Qed.

(** X6: the call to the library is fixed by the command line and the
    environment alone: one [hf_hub_url], [snapshot_download] or
    [hf_hub_download] call in the three operation modes, made whatever the
    file system holds and whether or not the call then fails, and no call
    for [--check], for a usage error or when the import failed. *)
Theorem one_call_per_operation (hub : Hub) (os : OS) (env : environ)
    (import_ok : bool) (args : Args) :
  hub_calls (fst (run_script hub os env import_ok args))
  = if negb import_ok || check args || usage_error args then []
    else if url_only args then
      [Call_hf_hub_url (unwrap (repo_id args)) (unwrap (filename args))
         (revision args)]
    else if snapshot args then
      [Call_snapshot_download
         (snapshot_kwargs (unwrap (repo_id args)) (dest args) (revision args)
            (resolve_token env args) (resolve_cache_dir env args)
            (split_patterns (allow_patterns args))
            (split_patterns (ignore_patterns args)))]
    else
      [Call_hf_hub_download
         (single_file_kwargs (unwrap (repo_id args)) (unwrap (filename args))
            (revision args) (resolve_token env args)
            (resolve_cache_dir env args) None)].
Proof. exact (run_script_calls hub os env import_ok args). Qed.

(** X7: the shape of the event stream of any run: nothing; or one terminal
    event ("complete" or "error"); or a "start" event followed by at most
    one terminal event.  No run prints two terminal events, or anything
    after one, or anything before "start". *)
Theorem event_stream_shape (hub : Hub) (os : OS) (env : environ)
    (import_ok : bool) (args : Args) :
  let evs := stdout (fst (run_script hub os env import_ok args)) in
  evs = []
  \/ (exists d, evs = [Event "complete" d])
  \/ (exists d, evs = [Event "error" d])
  \/ (exists d, evs = [Event "start" d])
  \/ (exists d d', evs = [Event "start" d; Event "complete" d'])
  \/ (exists d d', evs = [Event "start" d; Event "error" d']).
Proof.
  destruct import_ok; [|left; reflexivity].
  run_py. repeat break_match; cbn; eauto 10.
Qed.

(** ** Exit status and terminal event *)



(** X8: an "error" event always comes with exit status 1: whenever the
    script printed one, the process fails. *)
Theorem error_event_exits_1 (hub : Hub) (os : OS) (env : environ)
    (import_ok : bool) (args : Args) :
  count_type "error" (stdout (fst (run_script hub os env import_ok args)))
    <> 0%nat ->
  snd (run_script hub os env import_ok args) = 1.
Proof.
  destruct import_ok; [|reflexivity].
  run_py. repeat break_match; cbn; congruence.
Qed.

Lemma error_event_exits_1_witness :
  snd (run_script hub_offline sample_os no_env true args_single_dest) = 1.
Proof.
  apply (error_event_exits_1 hub_offline sample_os no_env true
           args_single_dest).
  discriminate.
Defined.



(** ** What is handed to the download functions *)

Lemma dict_get_set_if_truthy_same (k : string) (o : option string)
    (kw : kwargs) :
  dict_get k (set_if_truthy k o kw)
  = if truthy o then option_map KStr o else dict_get k kw.
Proof.
  unfold set_if_truthy. destruct o as [s|]; [|reflexivity].
  destruct (truthy (Some s)); [apply dict_get_set_eq | reflexivity].
Qed.

(** The one call of a download, with its keyword arguments. *)
Lemma download_call (hub : Hub) (os : OS) (env : environ) (args : Args) :
  single_invocation args || snapshot_invocation args = true ->
  exists c,
    hub_calls (fst (run_script hub os env true args)) = [c]
    /\ call_kwargs c
       = if snapshot args then
           snapshot_kwargs (unwrap (repo_id args)) (dest args) (revision args)
             (resolve_token env args) (resolve_cache_dir env args)
             (split_patterns (allow_patterns args))
             (split_patterns (ignore_patterns args))
         else
           single_file_kwargs (unwrap (repo_id args)) (unwrap (filename args))
             (revision args) (resolve_token env args)
             (resolve_cache_dir env args) None.
Proof.
  intros H. rewrite run_script_calls. cbn [negb orb].
  unfold single_invocation, snapshot_invocation, usage_error in *.
  destruct (check args), (truthy (repo_id args)), (url_only args),
    (snapshot args), (truthy (filename args)); try discriminate;
    cbn [negb orb andb]; eexists; split; reflexivity.
Qed.

Lemma resolve_token_first_truthy (env : environ) (args : Args) :
  (if truthy (resolve_token env args)
   then option_map KStr (resolve_token env args) else None)
  = option_map KStr (first_truthy [token args; env "HF_TOKEN"]).
Proof.
  unfold resolve_token. cbn [first_truthy].
  destruct (truthy (token args)) eqn:Et; cbn [negb].
  - now rewrite Et.
  - destruct (truthy (env "HF_TOKEN")); reflexivity.
Qed.

Lemma resolve_cache_dir_first_truthy (env : environ) (args : Args) :
  (if truthy (resolve_cache_dir env args)
   then option_map KStr (resolve_cache_dir env args) else None)
  = option_map KStr
      (first_truthy [cache_dir args; env "HF_HUB_CACHE";
                     env "HUGGINGFACE_HUB_CACHE"]).
Proof.
  unfold resolve_cache_dir, py_or. cbn [first_truthy].
  destruct (truthy (cache_dir args)) eqn:Ec; cbn [negb].
  - now rewrite Ec.
  - destruct (truthy (env "HF_HUB_CACHE")) eqn:Ea.
    + now rewrite Ea.
    + destruct (truthy (env "HUGGINGFACE_HUB_CACHE")); reflexivity.
Qed.

Lemma kwargs_token (repo file rev : string) dest tok cd ld allow ignore :
  dict_get "token" (single_file_kwargs repo file rev tok cd ld)
    = (if truthy tok then option_map KStr tok else None)
  /\ dict_get "token" (snapshot_kwargs repo dest rev tok cd allow ignore)
    = (if truthy tok then option_map KStr tok else None).
Proof.
  unfold single_file_kwargs, snapshot_kwargs. split.
  - rewrite dict_get_set_local_dir by discriminate.
    rewrite dict_get_set_if_truthy by discriminate.
    rewrite dict_get_set_if_truthy_same. reflexivity.
  - rewrite dict_get_set_local_dir by discriminate.
    rewrite !dict_get_set_if_nonempty by discriminate.
    rewrite dict_get_set_if_truthy by discriminate.
    rewrite dict_get_set_if_truthy_same. reflexivity.
Qed.

Lemma kwargs_cache_dir (repo file rev : string) dest tok cd ld allow ignore :
  dict_get "cache_dir" (single_file_kwargs repo file rev tok cd ld)
    = (if truthy cd then option_map KStr cd else None)
  /\ dict_get "cache_dir" (snapshot_kwargs repo dest rev tok cd allow ignore)
    = (if truthy cd then option_map KStr cd else None).
Proof.
  unfold single_file_kwargs, snapshot_kwargs. split.
  - rewrite dict_get_set_local_dir by discriminate.
    rewrite dict_get_set_if_truthy_same.
    rewrite dict_get_set_if_truthy by discriminate. reflexivity.
  - rewrite dict_get_set_local_dir by discriminate.
    rewrite !dict_get_set_if_nonempty by discriminate.
    rewrite dict_get_set_if_truthy_same.
    rewrite dict_get_set_if_truthy by discriminate. reflexivity.
Qed.

(** X10: in both download modes the [token] keyword argument is the
    [--token] value when that is a non-empty string, otherwise the value of
    [HF_TOKEN] when that is a non-empty string, and otherwise it is not
    passed at all: the command line wins over the environment, and an empty
    string is never forwarded. *)
Theorem token_forwarded (hub : Hub) (os : OS) (env : environ) (args : Args) :
  single_invocation args || snapshot_invocation args = true ->
  exists c,
    hub_calls (fst (run_script hub os env true args)) = [c]
    /\ dict_get "token" (call_kwargs c)
       = option_map KStr (first_truthy [token args; env "HF_TOKEN"]).
Proof.
  intros H. destruct (download_call hub os env args H) as (c & Hc & Hkw).
  exists c. split; [exact Hc|]. rewrite Hkw, <- resolve_token_first_truthy.
  destruct (snapshot args).
  - apply (proj2 (kwargs_token _ "" _ _ _ _ None _ _)).
  - apply (proj1 (kwargs_token _ _ _ None _ _ _ None None)).
Qed.

Lemma token_forwarded_witness :
  exists c,
    hub_calls (fst (run_script hub_sample sample_os env_token true
                      args_snapshot_dest)) = [c]
    /\ dict_get "token" (call_kwargs c) = Some (KStr "cli").
Proof.
  exact (token_forwarded hub_sample sample_os env_token args_snapshot_dest
           eq_refl).
Defined.

(** X11: in both download modes the [cache_dir] keyword argument is the
    first non-empty string among [--cache-dir], [HF_HUB_CACHE] and
    [HUGGINGFACE_HUB_CACHE], and it is not passed when there is none: a
    given [--cache-dir] wins over both variables, and an empty
    [--cache-dir] counts as omitted. *)
Theorem cache_dir_forwarded (hub : Hub) (os : OS) (env : environ)
    (args : Args) :
  single_invocation args || snapshot_invocation args = true ->
  exists c,
    hub_calls (fst (run_script hub os env true args)) = [c]
    /\ dict_get "cache_dir" (call_kwargs c)
       = option_map KStr
           (first_truthy [cache_dir args; env "HF_HUB_CACHE";
                          env "HUGGINGFACE_HUB_CACHE"]).
Proof.
  intros H. destruct (download_call hub os env args H) as (c & Hc & Hkw).
  exists c. split; [exact Hc|].
  rewrite Hkw, <- resolve_cache_dir_first_truthy.
  destruct (snapshot args).
  - apply (proj2 (kwargs_cache_dir _ "" _ _ _ _ None _ _)).
  - apply (proj1 (kwargs_cache_dir _ _ _ None _ _ _ None None)).
Qed.

Lemma cache_dir_forwarded_witness :
  exists c,
    hub_calls (fst (run_script hub_sample sample_os env_empty_hf_cache true
                      args_single_dest)) = [c]
    /\ dict_get "cache_dir" (call_kwargs c) = Some (KStr "/x").
Proof.
  exact (cache_dir_forwarded hub_sample sample_os env_empty_hf_cache
           args_single_dest eq_refl).
Defined.

Lemma dict_get_local_dir (o : option string) (kw : kwargs) :
  dict_get "local_dir" (set_local_dir o kw)
    = (if truthy o then option_map KStr o else dict_get "local_dir" kw)
  /\ dict_get "local_dir_use_symlinks" (set_local_dir o kw)
    = (if truthy o then Some (KBool false)
       else dict_get "local_dir_use_symlinks" kw).
Proof.
  unfold set_local_dir. destruct o as [s|]; [|split; reflexivity].
  destruct (truthy (Some s)); [|split; reflexivity]. split.
  - rewrite dict_get_set_neq by discriminate. apply dict_get_set_eq.
  - apply dict_get_set_eq.
Qed.

(** X12: [--dest] reaches the library only in snapshot mode: there a
    non-empty destination is passed as [local_dir] together with
    [local_dir_use_symlinks=False]; without [--snapshot], or with no or an
    empty [--dest], neither keyword argument is passed. *)
Theorem local_dir_forwarded (hub : Hub) (os : OS) (env : environ)
    (args : Args) :
  single_invocation args || snapshot_invocation args = true ->
  exists c,
    hub_calls (fst (run_script hub os env true args)) = [c]
    /\ dict_get "local_dir" (call_kwargs c)
       = (if snapshot args && truthy (dest args)
          then option_map KStr (dest args) else None)
    /\ dict_get "local_dir_use_symlinks" (call_kwargs c)
       = (if snapshot args && truthy (dest args)
          then Some (KBool false) else None).
Proof.
  intros H. destruct (download_call hub os env args H) as (c & Hc & Hkw).
  exists c. split; [exact Hc|]. rewrite Hkw.
  destruct (snapshot args); cbn [andb].
  - unfold snapshot_kwargs.
    destruct (dict_get_local_dir (dest args)
                (set_if_nonempty "ignore_patterns"
                   (split_patterns (ignore_patterns args))
                   (set_if_nonempty "allow_patterns"
                      (split_patterns (allow_patterns args))
                      (set_if_truthy "cache_dir" (resolve_cache_dir env args)
                         (set_if_truthy "token" (resolve_token env args)
                            [("repo_id", KStr (unwrap (repo_id args)));
                             ("revision", KStr (revision args))])))))
      as [-> ->].
    rewrite !dict_get_set_if_nonempty by discriminate.
    rewrite !dict_get_set_if_truthy by discriminate.
    split; reflexivity.
  - unfold single_file_kwargs. cbn [set_local_dir].
    rewrite !dict_get_set_if_truthy by discriminate.
    split; reflexivity.
Qed.

Lemma local_dir_forwarded_witness :
  exists c,
    hub_calls (fst (run_script hub_sample sample_os no_env true
                      args_snapshot_dest)) = [c]
    /\ dict_get "local_dir" (call_kwargs c) = Some (KStr "./models")
    /\ dict_get "local_dir_use_symlinks" (call_kwargs c) = Some (KBool false).
Proof.
  exact (local_dir_forwarded hub_sample sample_os no_env args_snapshot_dest
           eq_refl).
Defined.

(** X13: [--repo-id] and [--revision] are always handed over as they were
    given, and [--filename] in single-file mode only; the snapshot call has
    no [filename]. *)
Theorem required_arguments_forwarded (hub : Hub) (os : OS) (env : environ)
    (args : Args) :
  single_invocation args || snapshot_invocation args = true ->
  exists c,
    hub_calls (fst (run_script hub os env true args)) = [c]
    /\ dict_get "repo_id" (call_kwargs c) = option_map KStr (repo_id args)
    /\ dict_get "revision" (call_kwargs c) = Some (KStr (revision args))
    /\ dict_get "filename" (call_kwargs c)
       = (if snapshot args then None else option_map KStr (filename args)).
Proof.
  intros H. destruct (download_call hub os env args H) as (c & Hc & Hkw).
  exists c. split; [exact Hc|]. rewrite Hkw.
  unfold single_invocation, snapshot_invocation in H.
  destruct (repo_id args) as [repo|];
    [|destruct (check args); discriminate].
  destruct (snapshot args).
  - unfold snapshot_kwargs.
    rewrite !dict_get_set_local_dir by discriminate.
    rewrite !dict_get_set_if_nonempty by discriminate.
    rewrite !dict_get_set_if_truthy by discriminate.
    repeat split.
  - destruct (filename args) as [file|];
      [|destruct (check args), (truthy (Some repo)), (url_only args);
        discriminate].
    unfold single_file_kwargs. cbn [set_local_dir].
    rewrite !dict_get_set_if_truthy by discriminate.
    repeat split.
Qed.

Lemma required_arguments_forwarded_witness :
  exists c,
    hub_calls (fst (run_script hub_sample sample_os no_env true
                      args_single_dest)) = [c]
    /\ dict_get "repo_id" (call_kwargs c) = Some (KStr "gpt2")
    /\ dict_get "revision" (call_kwargs c) = Some (KStr "main")
    /\ dict_get "filename" (call_kwargs c) = Some (KStr "config.json").
Proof.
  exact (required_arguments_forwarded hub_sample sample_os no_env
           args_single_dest eq_refl).
Defined.

(** ** Patterns *)

Lemma length_split_from (sep : ascii) (s acc : string) :
  List.length (split_from sep acc s) = S (count_char sep s).
Proof.
  revert acc. induction s as [|c s IH]; intros acc; cbn; [reflexivity|].
  destruct (Ascii.eqb c sep); cbn; now rewrite IH.
Qed.

(** X14: how a pattern string reaches [snapshot_download].  An empty string
    is treated like an omitted argument.  Otherwise the list passed has one
    more piece than the string has commas, no piece holds a comma, and the
    pieces joined by commas give the string back: pieces are passed as they
    are, empty ones included, nothing is stripped or dropped. *)
Theorem patterns_pieces (hub : Hub) (os : OS) (env : environ) (args : Args)
    (s : string) :
  snapshot_invocation args = true ->
  allow_patterns args = Some s ->
  exists c,
    hub_calls (fst (run_script hub os env true args)) = [c]
    /\ if (s =? "")%string
       then dict_get "allow_patterns" (call_kwargs c) = None
       else exists l,
           dict_get "allow_patterns" (call_kwargs c) = Some (KList l)
           /\ join "," l = s
           /\ Forall (fun x => has_char "," x = false) l
           /\ List.length l = S (count_char "," s).
Proof.
  intros H Hs.
  assert (H' : single_invocation args || snapshot_invocation args = true)
    by (rewrite H; apply orb_true_r).
  destruct (download_call hub os env args H') as (c & Hc & Hkw).
  exists c. split; [exact Hc|]. rewrite Hkw.
  unfold snapshot_invocation in H.
  destruct (snapshot args); [|rewrite andb_false_r in H; discriminate].
  unfold snapshot_kwargs.
  rewrite dict_get_set_local_dir by discriminate.
  rewrite dict_get_set_if_nonempty by discriminate.
  rewrite Hs. unfold split_patterns, truthy.
  destruct (s =? "")%string eqn:E; cbn [negb].
  - cbn [set_if_nonempty].
    rewrite !dict_get_set_if_truthy by discriminate. reflexivity.
  - rewrite set_if_nonempty_split, dict_get_set_eq.
    exists (split "," s). split; [reflexivity|].
    split; [apply join_split|]. split; [apply split_no_sep|].
    apply length_split_from.
Qed.

Lemma patterns_pieces_witness :
  exists c,
    hub_calls (fst (run_script hub_sample sample_os no_env true
                      args_snapshot_abc)) = [c]
    /\ exists l,
         dict_get "allow_patterns" (call_kwargs c) = Some (KList l)
         /\ join "," l = "a,b,c"
         /\ Forall (fun x => has_char "," x = false) l
         /\ List.length l = 3%nat.
Proof.
  exact (patterns_pieces hub_sample sample_os no_env args_snapshot_abc
           "a,b,c" eq_refl eq_refl).
Defined.

(** ** Flags without effect in single-file mode *)

(** X15: in single-file mode [--dest], [--allow-patterns] and
    [--ignore-patterns] change nothing: two command lines that differ only
    in them print the same events, make the same call and exit alike. *)
Theorem single_file_ignores_dest_and_patterns (hub : Hub) (os : OS)
    (env : environ) (args : Args) (d allow ignore : option string) :
  single_invocation args = true ->
  run_script hub os env true
    (mkArgs (repo_id args) (filename args) d (revision args) (token args)
       (cache_dir args) (snapshot args) allow ignore (url_only args)
       (check args))
  = run_script hub os env true args.
Proof.
  intros H. unfold run_script.
  rewrite (main_single hub os env true args _ H).
  rewrite main_single by exact H. reflexivity.
Qed.

Lemma single_file_ignores_dest_and_patterns_witness :
  run_script hub_sample sample_os no_env true
    (mkArgs (Some "gpt2") (Some "config.json") None "main" None None false
       (Some "*.bin") None false false)
  = run_script hub_sample sample_os no_env true args_single_dest.
Proof.
  apply (single_file_ignores_dest_and_patterns hub_sample sample_os no_env
           args_single_dest None (Some "*.bin") None).
  reflexivity.
Defined.

(** ** Paths that do not exist *)

(** X16: when [hf_hub_download] returns a path that does not exist, the
    single-file download still succeeds: it reports [file_size] 0 in the
    "complete" event and exits with status 0, and [os.path.getsize] is not
    consulted. *)
Theorem single_file_missing_path (hub : Hub) (os : OS) (env : environ)
    (args : Args) (p : path) :
  single_invocation args = true ->
  hf_hub_download hub
    (single_file_kwargs (unwrap (repo_id args)) (unwrap (filename args))
       (revision args) (resolve_token env args) (resolve_cache_dir env args)
       None) = Return p ->
  os_path_exists os p = false ->
  stdout (fst (run_script hub os env true args))
  = [Event "start" [("repo_id", JStr (unwrap (repo_id args)));
                    ("filename", JStr (unwrap (filename args)));
                    ("revision", JStr (revision args))];
     Event "complete" [("file_path", JPath p); ("file_size", JInt 0);
                       ("repo_id", JStr (unwrap (repo_id args)));
                       ("filename", JStr (unwrap (filename args)))]]
  /\ snd (run_script hub os env true args) = 0.
Proof.
  intros H Hd He. unfold run_script. rewrite (main_single _ _ _ _ _ _ H).
  run_py. rewrite Hd, He. split; reflexivity.
Qed.

Lemma single_file_missing_path_witness :
  stdout (fst (run_script
                 (mkHub (fun _ => Return ["nowhere"]) (fun _ => Return [])
                        (fun _ _ _ => Return ""))
                 sample_os no_env true args_single_dest))
  = [Event "start" [("repo_id", JStr "gpt2");
                    ("filename", JStr "config.json");
                    ("revision", JStr "main")];
     Event "complete" [("file_path", JPath ["nowhere"]);
                       ("file_size", JInt 0); ("repo_id", JStr "gpt2");
                       ("filename", JStr "config.json")]]
  /\ snd (run_script
            (mkHub (fun _ => Return ["nowhere"]) (fun _ => Return [])
                   (fun _ _ _ => Return ""))
            sample_os no_env true args_single_dest) = 0.
Proof.
  apply (single_file_missing_path
           (mkHub (fun _ => Return ["nowhere"]) (fun _ => Return [])
                  (fun _ _ _ => Return ""))
           sample_os no_env args_single_dest ["nowhere"]); reflexivity.
Defined.

(** ** Bounds on the aggregates *)

Lemma count_in_dir_bounds (os : OS) (root : path) (files : list string) :
  forall acc acc',
  count_in_dir os root files acc = Return acc' ->
  fst acc <= fst acc'
  /\ snd acc <= snd acc' <= snd acc + Z.of_nat (List.length files)
  /\ (snd acc' = snd acc -> fst acc' = fst acc).
Proof.
  induction files as [|f fs IH]; intros acc acc'; cbn [count_in_dir].
  - intros [= <-]. cbn. lia.
  - destruct (_ && _).
    + destruct (os_path_getsize os _) as [n|e]; [|discriminate].
      intros H. apply IH in H. cbn [fst snd List.length] in *.
      rewrite Nat2Z.inj_succ. lia.
    + intros H. apply IH in H. cbn [List.length].
      rewrite Nat2Z.inj_succ. lia.
Qed.

Lemma count_walk_bounds (os : OS)
    (triples : list (path * list string * list string)) :
  forall acc acc',
  count_walk os triples acc = Return acc' ->
  fst acc <= fst acc'
  /\ snd acc <= snd acc' <= snd acc + Z.of_nat (listed_files triples)
  /\ (snd acc' = snd acc -> fst acc' = fst acc).
Proof.
  induction triples as [|[[r ds] fs] l IH]; intros acc acc';
    cbn [count_walk listed_files fold_right].
  - intros [= <-]. cbn. lia.
  - destruct (count_in_dir os r fs acc) as [acc1|e] eqn:E; [|discriminate].
    intros H. apply IH in H. apply count_in_dir_bounds in E.
    fold (listed_files l). cbn [snd]. rewrite Nat2Z.inj_add. lia.
Qed.

(** X17: on any file system, the aggregates a snapshot download reports
    are never negative, [file_count] is at most the number of file names
    [os.walk] listed, and [total_size] is 0 when [file_count] is 0. *)
Theorem aggregates_bounds (os : OS) (p : path) (total_size file_count : Z) :
  count_files os p = Return (total_size, file_count) ->
  0 <= total_size
  /\ 0 <= file_count <= Z.of_nat (listed_files (os_walk os p))
  /\ (file_count = 0 -> total_size = 0).
Proof.
  unfold count_files. destruct (os_path_exists os p).
  - intros H. apply count_walk_bounds in H. cbn [fst snd] in H. lia.
  - intros [= <- <-]. lia.
Qed.

Lemma aggregates_bounds_witness :
  0 <= 22
  /\ 0 <= 3 <= Z.of_nat (listed_files (os_walk sample_os ["cache"; "snap"]))
  /\ (3 = 0 -> 22 = 0).
Proof.
  apply (aggregates_bounds sample_os ["cache"; "snap"] 22 3). reflexivity.
Defined.

(** ** A snapshot made of links *)

Lemma only_links_no_files (n : node) :
  only_links n = true -> regular_files n = [].
Proof.
  induction n as [s| |t _|es IH] using node_ind; cbn; try discriminate;
    try reflexivity.
  intros H. induction es as [|e es IHes]; [reflexivity|].
  cbn in *. apply andb_prop in H as [He Hes].
  inversion IH as [|x l Hx Hl]; subst.
  rewrite (Hx He), (IHes Hl Hes). reflexivity.
Qed.

(** X18: a snapshot directory whose files are all symbolic links (the
    layout of the library's cache, where the files of a snapshot are links
    into [blobs]) is reported with [file_count] 0 and [total_size] 0,
    however many files the links point to. *)
Theorem snapshot_of_links_counts_nothing (root : node) (dir_size : N)
    (p : path) (d : node) :
  well_formed root = true ->
  stat root p = Some d ->
  only_links d = true ->
  count_files (tree_os root dir_size) p = Return (0, 0).
Proof.
  intros Hwf Hs Hl. rewrite (count_files_tree root dir_size p Hwf).
  unfold files_under. rewrite Hs.
  destruct d as [s|t|es]; try reflexivity.
  rewrite (only_links_no_files (Dir es) Hl). reflexivity.
Qed.

Lemma snapshot_of_links_counts_nothing_witness :
  count_files (tree_os cache_tree 4096) ["snapshots"; "main"] = Return (0, 0)
  /\ stdout (fst (run_script hub_cache (tree_os cache_tree 4096) no_env true
                    args_snapshot_abc))
     = [Event "start" [("repo_id", JStr "gpt2"); ("revision", JStr "main");
                       ("type", JStr "snapshot")];
        Event "complete" [("snapshot_path", JPath ["snapshots"; "main"]);
                          ("file_count", JInt 0); ("total_size", JInt 0);
                          ("repo_id", JStr "gpt2")]].
Proof.
  split; [|reflexivity].
  apply (snapshot_of_links_counts_nothing cache_tree 4096
           ["snapshots"; "main"]
           (Dir [("config.json", Link (Some (File 548)));
                 ("onnx", Dir [("model.onnx", Link (Some (File 1042)))])]));
    reflexivity.
Defined.

(** ** More on the progress reporter *)

Lemma latest_app (f : report_call -> option Z) (cs : list report_call)
    (c : report_call) (d : Z) :
  latest f (cs ++ [c]) d
  = match f c with Some v => v | None => latest f cs d end.
Proof. unfold latest. rewrite fold_left_app. reflexivity. Qed.

Lemma run_reports_state (cs : list report_call) :
  forall (self : ProgressReporter) (w : World),
  let '(w', self') := run_reports self cs w in
  current_bytes self' = latest arg_current cs (current_bytes self)
  /\ total_bytes self' = latest arg_total cs (total_bytes self)
  /\ report_interval self' = report_interval self
  /\ hub_calls w' = hub_calls w.
Proof.
  induction cs as [|c cs IH]; intros self w.
  - cbn. repeat split.
  - cbn [run_reports]. rewrite report_run. cbv zeta.
    destruct (Qle_bool _ _); [destruct (percentage _)|];
      match goal with
      | |- context [run_reports ?s cs ?w1] =>
          specialize (IH s w1); destruct (run_reports s cs w1) as [w' self']
      end;
      destruct IH as (Hc & Ht & Hi & Hh); rewrite Hc, Ht, Hi, Hh;
      destruct c as [t [cur|] [tot|]]; repeat split.
Qed.

(** X19: the reporter keeps the last values it was given, whether a call
    printed, stayed silent or raised: after any sequence of calls,
    [current_bytes] and [total_bytes] are the last [current] and [total]
    arguments that were not None (or what they were before, when there was
    none), and the interval is unchanged. *)
Theorem reporter_keeps_latest_values (cs : list report_call)
    (self : ProgressReporter) (w : World) :
  let self' := snd (run_reports self cs w) in
  current_bytes self' = latest arg_current cs (current_bytes self)
  /\ total_bytes self' = latest arg_total cs (total_bytes self)
  /\ report_interval self' = report_interval self.
Proof.
  pose proof (run_reports_state cs self w) as H.
  destruct (run_reports self cs w) as [w' self'].
  destruct H as (Hc & Ht & Hi & _). cbn. auto.
Qed.

(** X20: a "progress" event reports the values of the latest calls, the
    silent and the raising ones included: after the calls [pre] on a fresh
    reporter, what the next call prints holds as [current] and [total] the
    last such arguments given up to and including this call, 0 when none
    was given. *)
Theorem progress_event_reports_latest (pre : list report_call)
    (c : report_call) (w : World) :
  let '(w1, self1) := run_reports ProgressReporter_init pre w in
  let '(w2, _, _) :=
    report self1 (at_time c) (arg_current c) (arg_total c) w1 in
  Forall
    (fun e =>
       ev_type e = "progress"
       /\ dict_get "current" (ev_data e)
          = Some (JInt (latest arg_current (pre ++ [c]) 0))
       /\ dict_get "total" (ev_data e)
          = Some (JInt (latest arg_total (pre ++ [c]) 0)))
    (printed w1 w2).
Proof.
  pose proof (run_reports_state pre ProgressReporter_init w) as H.
  destruct (run_reports ProgressReporter_init pre w) as [w1 self1].
  destruct H as (Hc & Ht & _ & _).
  rewrite report_run, !latest_app. cbv zeta.
  destruct (Qle_bool _ _); [destruct (percentage _)|].
  - rewrite printed_one. constructor; [|constructor].
    unfold current_after, total_after. rewrite Hc, Ht.
    cbn [current_bytes total_bytes ProgressReporter_init].
    repeat split.
  - unfold printed. rewrite skipn_all. constructor.
  - unfold printed. rewrite skipn_all. constructor.
Qed.

(** X21: a reporter made by [__init__] starts with [last_report_time] 0, so
    its first call prints exactly when the clock reads at least 0.5 (any
    real clock) and the call returns, that is, the division does not
    overflow. *)
Theorem first_report_prints (now : Q) (current total : option Z) (w : World) :
  let '(w', _, r) := report ProgressReporter_init now current total w in
  printed w w' <> [] <-> ((1 # 2 <= now)%Q /\ r = Return tt).
Proof.
  rewrite report_run. cbv zeta.
  cbn [report_interval last_report_time ProgressReporter_init].
  assert (Hiff : Qle_bool (1 # 2) (now - 0) = true <-> (1 # 2 <= now)%Q).
  { rewrite Qle_bool_iff. split; intros H; lra. }
  destruct (Qle_bool (1 # 2) (now - 0)).
  - destruct (percentage _) as [pct|e].
    + rewrite printed_one. split; [|discriminate].
      intros _. split; [now apply Hiff | reflexivity].
    + unfold printed. rewrite skipn_all.
      split; [congruence | intros [_ H]; discriminate].
  - unfold printed. rewrite skipn_all. split; [congruence|].
    intros [H _]. apply Hiff in H. discriminate.
Qed.
